(** * Stories & Stitches: the deterministic credit-scoring engine

    A shallow embedding of the credit calculation that follows the visual
    assessment prompt in the book-condition flow ([calculateConditionScore],
    [calculateDemandScore], [calculateRarityScore], [calculateBonusFactors],
    [calculateFinalCredits] and the body of [assessBookConditionFlow]), and the
    properties its design specification states about it.

    A JavaScript [number] is an IEEE 754 binary64 value.  It is modelled by
    the Standard Library's [spec_float] at precision 53 and maximal exponent
    1024, whose operations round to nearest, ties to even, and compute inside
    Rocq.  Strings are sequences of 8-bit characters. *)

From Stdlib Require Import ZArith List Bool Lia.
From Stdlib Require Import Strings.String Strings.Ascii.
From Stdlib Require Import Floats.SpecFloat.
Import ListNotations.

Set Implicit Arguments.

(* ================================================================== *)
(** ** JavaScript numbers *)
(* ================================================================== *)

Module JS.

Definition number : Type := spec_float.

Definition prec : Z := 53.
Definition emax : Z := 1024.

(** An integer literal: the binary64 value nearest to [z]. *)
Definition of_Z (z : Z) : number := binary_normalize prec emax z 0 false.

Definition add : number -> number -> number := SFadd prec emax.
Definition mul : number -> number -> number := SFmul prec emax.
Definition div : number -> number -> number := SFdiv prec emax.
Definition neg : number -> number := SFopp.

(** A decimal literal [n / 10^k], such as [0.3] = [dec 3 1]: the binary64
    value nearest to the decimal, which the correctly rounded quotient of
    the two exactly representable integers is. *)
Definition dec (n : Z) (k : Z) : number := div (of_Z n) (of_Z (10 ^ k)).

Definition NaN : number := S754_nan.

(** The relational operators; each is [false] as soon as an operand is
    [NaN]. *)
Definition lt (a b : number) : bool := SFltb a b.
Definition le (a b : number) : bool := SFleb a b.
Definition gt (a b : number) : bool := SFltb b a.
Definition ge (a b : number) : bool := SFleb b a.

(** [a === b] on numbers. *)
Definition strict_eq (a b : number) : bool := SFeqb a b.

Definition is_nan (a : number) : bool :=
  match a with S754_nan => true | _ => false end.

(** [Math.max(a, b)]: [NaN] if either is [NaN]; [+0] is larger than [-0]. *)
Definition Math_max (a b : number) : number :=
  if is_nan a || is_nan b then NaN
  else if SFltb a b then b
  else if SFltb b a then a
  else match a, b with
       | S754_zero sa, S754_zero sb => S754_zero (sa && sb)
       | _, _ => a
       end.

(** [Math.min(a, b)]: [NaN] if either is [NaN]; [-0] is smaller than [+0]. *)
Definition Math_min (a b : number) : number :=
  if is_nan a || is_nan b then NaN
  else if SFltb a b then a
  else if SFltb b a then b
  else match a, b with
       | S754_zero sa, S754_zero sb => S754_zero (sa || sb)
       | _, _ => a
       end.

(** [Math.round(x)]: the integer nearest to [x], a tie going towards
    [+Infinity]; [NaN], the infinities, the zeros and the integers are
    returned as they are, and a result of zero keeps the sign of [x]. *)
Definition Math_round (x : number) : number :=
  match x with
  | S754_finite s m e =>
      if (0 <=? e)%Z then x
      else
        let d := (2 ^ (- e))%Z in
        let sm := if s then Z.neg m else Z.pos m in
        binary_normalize prec emax ((2 * sm + d) / (2 * d))%Z 0 s
  | _ => x
  end.

(** A finite number with no fractional part. *)
Definition is_integer (x : number) : bool :=
  match x with
  | S754_zero _ => true
  | S754_finite _ m e => (0 <=? e)%Z || (Z.pos m mod 2 ^ (- e) =? 0)%Z
  | _ => false
  end.

(** [!s] for an optional string: [undefined] and the empty string are
    falsy. *)
Definition falsy (s : option string) : bool :=
  match s with
  | None => true
  | Some EmptyString => true
  | Some _ => false
  end.

(** The string that an optional string holds, once [!s] is known to be
    false. *)
Definition string_of (s : option string) : string :=
  match s with
  | Some t => t
  | None => EmptyString
  end.

(** [String.prototype.toLowerCase], on the letters [A]-[Z]; every other
    character is kept. *)
Definition lower_char (c : ascii) : ascii :=
  let n := nat_of_ascii c in
  if (65 <=? n)%nat && (n <=? 90)%nat then ascii_of_nat (n + 32) else c.

Fixpoint toLowerCase (s : string) : string :=
  match s with
  | EmptyString => EmptyString
  | String c s' => String (lower_char c) (toLowerCase s')
  end.

(** [s.includes(search)]. *)
Fixpoint includes (s search : string) : bool :=
  if prefix search s then true
  else match s with
       | EmptyString => false
       | String _ s' => includes s' search
       end.

(** [xs.some(p)]. *)
Definition some {A : Type} (xs : list A) (p : A -> bool) : bool :=
  existsb p xs.

(** The line feed of a ["\n"] escape. *)
Definition nl : string := String "010"%char EmptyString.

End JS.

Declare Scope js_scope.
Delimit Scope js_scope with js.
Bind Scope js_scope with JS.number.
Notation "x + y" := (JS.add x y) : js_scope.
Notation "x * y" := (JS.mul x y) : js_scope.
Notation "x / y" := (JS.div x y) : js_scope.
Notation "- x" := (JS.neg x) : js_scope.
Notation "x >=? y" := (JS.ge x y) (at level 70, no associativity) : js_scope.
Notation "x <=? y" := (JS.le x y) (at level 70, no associativity) : js_scope.
Notation "x <? y" := (JS.lt x y) (at level 70, no associativity) : js_scope.
Notation "x === y" := (JS.strict_eq x y) (at level 70, no associativity) : js_scope.
Notation "# z" := (JS.of_Z z%Z) (at level 1, format "# z") : js_scope.

Import JS.
Local Open Scope string_scope.
Local Open Scope js_scope.

(** The decimal literals of the source. *)
Definition n0_5 : number := dec 5 1.
Definition n0_3 : number := dec 3 1.
Definition n0_1 : number := dec 1 1.

(* ================================================================== *)
(** ** Data model *)
(* ================================================================== *)

(** [z.enum(['none', 'minor', 'heavy'])] *)
Inductive AnnotationSeverity : Type := none | minor | heavy.

(** The [creditBreakdown] object. *)
Record CreditBreakdown : Type := mkBreakdown {
  conditionCredits : number;
  demandCredits : number;
  rarityCredits : number;
  bonusCredits : number
}.

(** [AssessBookConditionInput]: the photographs and the description go to
    the prompt only; the title, the author and the four flags are the
    contextual factors of the credit calculation. *)
Module Input.
Record t : Type := mk {
  photoDataUris : list (string * string);
  description : string;
  bookTitle : option string;
  bookAuthor : option string;
  isFirstTimeDonor : bool;
  isThemeEvent : bool;
  isNewBook : bool;
  hasCraftMatch : bool
}.
End Input.

(** [AssessBookConditionOutput]: the schema of both the prompt's answer (the
    visual assessment, whose calculated fields the flow overwrites) and the
    flow's result. *)
Module Output.
Record t : Type := mk {
  coverCondition : number;
  spineCondition : number;
  pagesCondition : number;
  bindingIntegrity : number;
  cleanliness : number;
  hasAnnotations : bool;
  annotationSeverity : AnnotationSeverity;
  isComplete : bool;
  shouldReject : bool;
  conditionScore : number;
  demandScore : number;
  rarityScore : number;
  bonusFactors : number;
  finalCredits : number;
  creditBreakdown : CreditBreakdown;
  justification : string
}.
End Output.

(** The argument object of [calculateConditionScore]. *)
Module Assessment.
Record t : Type := mk {
  coverCondition : number;
  spineCondition : number;
  pagesCondition : number;
  bindingIntegrity : number;
  cleanliness : number;
  hasAnnotations : bool;
  annotationSeverity : AnnotationSeverity
}.
End Assessment.

(** The argument object of [calculateBonusFactors]. *)
Module Flags.
Record t : Type := mk {
  isFirstTimeDonor : bool;
  isThemeEvent : bool;
  isNewBook : bool;
  hasCraftMatch : bool
}.
End Flags.

(** The object [calculateFinalCredits] returns. *)
Module Final.
Record t : Type := mk {
  finalCredits : number;
  breakdown : CreditBreakdown
}.
End Final.

(** What running the flow's body does: it returns an output or throws. *)
Inductive completion : Type :=
| Return (out : Output.t)
| Throw (message : string).

(* ================================================================== *)
(** ** The credit calculation *)
(* ================================================================== *)

(** *** [calculateConditionScore] and its local constants *)

Definition coverScore (assessment : Assessment.t) : number :=
  if Assessment.coverCondition assessment >=? #9 then #1
  else if Assessment.coverCondition assessment >=? #7 then #0 else - #1.

Definition spineScore (assessment : Assessment.t) : number :=
  if Assessment.spineCondition assessment >=? #9 then #1
  else if Assessment.spineCondition assessment >=? #7 then #0 else - #1.

Definition pageScore (assessment : Assessment.t) : number :=
  if Assessment.pagesCondition assessment >=? #8 then #1 else - #1.

Definition annotationScore (assessment : Assessment.t) : number :=
  match Assessment.annotationSeverity assessment with
  | none => #0
  | minor => - n0_5
  | heavy => - #1
  end.

Definition completenessScore : number := #1.

Definition baseScore (assessment : Assessment.t) : number :=
  Math_max #0
    (#3 + coverScore assessment + spineScore assessment + pageScore assessment
     + annotationScore assessment + completenessScore).

Definition calculateConditionScore (assessment : Assessment.t) : number :=
  Math_min #5 (Math_max #0 (baseScore assessment)).

(** *** [calculateDemandScore] *)

Definition popularBooks : list string :=
  [ "the alchemist"; "harry potter"; "the great gatsby"; "to kill a mockingbird";
    "pride and prejudice"; "the catcher in the rye"; "1984"; "the lord of the rings" ].

Definition trendingGenres : list string :=
  [ "fantasy"; "mystery"; "thriller"; "romance"; "self-help" ].

Definition calculateDemandScore (bookTitle bookAuthor : option string) : number :=
  if falsy bookTitle then #1
  else
    let title := toLowerCase (string_of bookTitle) in
    if some popularBooks (fun book => includes title book) then #3
    else if some trendingGenres (fun genre => includes title genre) then #2
    else #1.

(** *** [calculateRarityScore] *)

Definition calculateRarityScore (bookTitle bookAuthor : option string) : number :=
  #0.

(** *** [calculateBonusFactors] *)

Definition calculateBonusFactors (input : Flags.t) : number :=
  let bonus := #0 in
  let bonus := if Flags.isFirstTimeDonor input then bonus + #1 else bonus in
  let bonus := if Flags.isThemeEvent input then bonus + n0_5 else bonus in
  let bonus := if Flags.isNewBook input then bonus + #2 else bonus in
  let bonus := if Flags.hasCraftMatch input then bonus + #1 else bonus in
  Math_min #5 bonus.

(** *** [calculateFinalCredits] *)

Definition calculateFinalCredits
    (conditionScore demandScore rarityScore bonusFactors : number) : Final.t :=
  let conditionCredits := conditionScore * n0_5 in
  let demandCredits := demandScore * n0_3 in
  let rarityCredits := rarityScore * n0_1 in
  let bonusCredits := bonusFactors in
  let finalCredits := conditionCredits + demandCredits + rarityCredits + bonusCredits in
  {| Final.finalCredits := Math_round (finalCredits * #100) / #100;
     Final.breakdown :=
       {| conditionCredits := Math_round (conditionCredits * #100) / #100;
          demandCredits := Math_round (demandCredits * #100) / #100;
          rarityCredits := Math_round (rarityCredits * #100) / #100;
          bonusCredits := Math_round (bonusCredits * #100) / #100 |} |}.

(** *** The body of [assessBookConditionFlow] *)

Section Flow.

(** [Number.prototype.toString], which the template literal applies to
    each interpolated number; it belongs to the platform, not to the
    repository. *)
Variable Number_toString : number -> string.

(** The template literal that builds [enhancedJustification]. *)
Definition enhancedJustification (output : Output.t)
    (conditionScore demandScore rarityScore bonusFactors finalCredits : number)
    (breakdown : CreditBreakdown) : string :=
  (((((Output.justification output ++ nl ++ nl ++ "CREDIT BREAKDOWN:" ++ nl)
   ++ ("• Condition Score: " ++ Number_toString conditionScore ++ "/5 ("
         ++ Number_toString (conditionCredits breakdown) ++ " credits)" ++ nl))
   ++ ("• Demand Score: " ++ Number_toString demandScore ++ "/3 ("
         ++ Number_toString (demandCredits breakdown) ++ " credits)" ++ nl))
   ++ ("• Rarity Score: " ++ Number_toString rarityScore ++ "/1 ("
         ++ Number_toString (rarityCredits breakdown) ++ " credits)" ++ nl))
   ++ ("• Bonus Factors: " ++ Number_toString bonusFactors ++ " ("
         ++ Number_toString (bonusCredits breakdown) ++ " credits)" ++ nl))
   ++ ("• TOTAL: " ++ Number_toString finalCredits ++ " credits").

(** [promptOutput] is what [await prompt(input)] destructures into
    [output]: the visual assessment, or nothing. *)
Definition assessBookConditionFlow (input : Input.t)
    (promptOutput : option Output.t) : completion :=
  match promptOutput with
  | None => Throw "No output from assessment prompt"
  | Some output =>
      if Output.shouldReject output || negb (Output.isComplete output) then
        Return
          {| Output.coverCondition := Output.coverCondition output;
             Output.spineCondition := Output.spineCondition output;
             Output.pagesCondition := Output.pagesCondition output;
             Output.bindingIntegrity := Output.bindingIntegrity output;
             Output.cleanliness := Output.cleanliness output;
             Output.hasAnnotations := Output.hasAnnotations output;
             Output.annotationSeverity := Output.annotationSeverity output;
             Output.isComplete := Output.isComplete output;
             Output.shouldReject := Output.shouldReject output;
             Output.conditionScore := #0;
             Output.demandScore := #0;
             Output.rarityScore := #0;
             Output.bonusFactors := #0;
             Output.finalCredits := #0;
             Output.creditBreakdown :=
               {| conditionCredits := #0;
                  demandCredits := #0;
                  rarityCredits := #0;
                  bonusCredits := #0 |};
             Output.justification :=
               Output.justification output
               ++ " - Book rejected due to severe damage or missing pages." |}
      else
        let conditionScore :=
          calculateConditionScore
            {| Assessment.coverCondition := Output.coverCondition output;
               Assessment.spineCondition := Output.spineCondition output;
               Assessment.pagesCondition := Output.pagesCondition output;
               Assessment.bindingIntegrity := Output.bindingIntegrity output;
               Assessment.cleanliness := Output.cleanliness output;
               Assessment.hasAnnotations := Output.hasAnnotations output;
               Assessment.annotationSeverity := Output.annotationSeverity output |} in
        let demandScore :=
          calculateDemandScore (Input.bookTitle input) (Input.bookAuthor input) in
        let rarityScore :=
          calculateRarityScore (Input.bookTitle input) (Input.bookAuthor input) in
        let bonusFactors :=
          calculateBonusFactors
            {| Flags.isFirstTimeDonor := Input.isFirstTimeDonor input;
               Flags.isThemeEvent := Input.isThemeEvent input;
               Flags.isNewBook := Input.isNewBook input;
               Flags.hasCraftMatch := Input.hasCraftMatch input |} in
        let final :=
          calculateFinalCredits conditionScore demandScore rarityScore bonusFactors in
        let finalCredits := Final.finalCredits final in
        let breakdown := Final.breakdown final in
        Return
          {| Output.coverCondition := Output.coverCondition output;
             Output.spineCondition := Output.spineCondition output;
             Output.pagesCondition := Output.pagesCondition output;
             Output.bindingIntegrity := Output.bindingIntegrity output;
             Output.cleanliness := Output.cleanliness output;
             Output.hasAnnotations := Output.hasAnnotations output;
             Output.annotationSeverity := Output.annotationSeverity output;
             Output.isComplete := Output.isComplete output;
             Output.shouldReject := Output.shouldReject output;
             Output.conditionScore := conditionScore;
             Output.demandScore := demandScore;
             Output.rarityScore := rarityScore;
             Output.bonusFactors := bonusFactors;
             Output.finalCredits := finalCredits;
             Output.creditBreakdown := breakdown;
             Output.justification :=
               enhancedJustification output conditionScore demandScore rarityScore
                 bonusFactors finalCredits breakdown |}
  end.

End Flow.

(* ================================================================== *)
(** ** Vocabulary of the specification *)
(* ================================================================== *)

(** [clamp(x, lo, hi)]. *)
Definition clamp (x lo hi : number) : number := Math_min hi (Math_max lo x).

(** [x] lies in the closed interval [[lo, hi]]. *)
Definition within (x lo hi : number) : bool := (lo <=? x) && (x <=? hi).

(** The contribution the specification gives the cover and the spine:
    [+1] from 9 up, [0] in [[7,8]], [-1] otherwise. *)
Definition bandContribution (c : number) : number :=
  if c >=? #9 then #1 else if within c #7 #8 then #0 else - #1.

(** The contribution the specification gives the pages. *)
Definition pageContribution (c : number) : number :=
  if c >=? #8 then #1 else - #1.

(** The annotation penalty of the specification. *)
Definition annotationPenalty (s : AnnotationSeverity) : number :=
  match s with none => #0 | minor => - dec 5 1 | heavy => - #1 end.

(** Rounding to two decimal places, in the source's idiom
    [Math.round(x * 100) / 100]. *)
Definition roundTo2 (x : number) : number := Math_round (x * #100) / #100.

(** [sub] occurs in [s]. *)
Definition Substring (sub s : string) : Prop :=
  exists pre post : string, s = pre ++ sub ++ post.

(** The book is rejected: the condition of the flow's rejection gate. *)
Definition rejected (output : Output.t) : bool :=
  Output.shouldReject output || negb (Output.isComplete output).

(** The argument object the flow builds for [calculateConditionScore]. *)
Definition assessmentOf (output : Output.t) : Assessment.t :=
  {| Assessment.coverCondition := Output.coverCondition output;
     Assessment.spineCondition := Output.spineCondition output;
     Assessment.pagesCondition := Output.pagesCondition output;
     Assessment.bindingIntegrity := Output.bindingIntegrity output;
     Assessment.cleanliness := Output.cleanliness output;
     Assessment.hasAnnotations := Output.hasAnnotations output;
     Assessment.annotationSeverity := Output.annotationSeverity output |}.

(** The argument object the flow builds for [calculateBonusFactors]. *)
Definition flagsOf (input : Input.t) : Flags.t :=
  {| Flags.isFirstTimeDonor := Input.isFirstTimeDonor input;
     Flags.isThemeEvent := Input.isThemeEvent input;
     Flags.isNewBook := Input.isNewBook input;
     Flags.hasCraftMatch := Input.hasCraftMatch input |}.

(** What [k <= c] means for a positive finite [k = mk * 2^ek], read off the
    representation of [c]. *)
Definition at_least (mk : positive) (ek : Z) (c : number) : Prop :=
  match c with
  | S754_infinity false => True
  | S754_finite false m e => (ek < e)%Z \/ (e = ek /\ (Z.pos mk <= Z.pos m)%Z)
  | _ => False
  end.

(** What [k < c] means for a positive finite [k = mk * 2^ek]. *)
Definition above (mk : positive) (ek : Z) (c : number) : Prop :=
  match c with
  | S754_infinity false => True
  | S754_finite false m e => (ek < e)%Z \/ (e = ek /\ (Z.pos mk < Z.pos m)%Z)
  | _ => False
  end.

(** What [c <= k] means for a positive finite [k = mk * 2^ek]. *)
Definition at_most (mk : positive) (ek : Z) (c : number) : Prop :=
  match c with
  | S754_nan => False
  | S754_infinity s => s = true
  | S754_zero _ => True
  | S754_finite true _ _ => True
  | S754_finite false m e => (e < ek)%Z \/ (e = ek /\ (Z.pos m <= Z.pos mk)%Z)
  end.

(** All sixteen combinations of the four flags. *)
Definition allFlags : list Flags.t :=
  flat_map (fun f => flat_map (fun t => flat_map (fun n => map (fun c =>
    Flags.mk f t n c) [false; true]) [false; true]) [false; true]) [false; true].

(** The bonus of a combination of flags as an exact number of hundredths. *)
Definition bonusHundredths (input : Flags.t) : Z :=
  ((if Flags.isFirstTimeDonor input then 100 else 0)
   + (if Flags.isThemeEvent input then 50 else 0)
   + (if Flags.isNewBook input then 200 else 0)
   + (if Flags.hasCraftMatch input then 100 else 0))%Z.

(** The values the bonus can take: the sums of the contributions. *)
Definition bonusValues : list number := map calculateBonusFactors allFlags.

(** The values the condition score can take: the halves from 0 to 5. *)
Definition conditionValues : list number :=
  map (fun k => dec (5 * k) 1) [0; 1; 2; 3; 4; 5; 6; 7; 8; 9; 10]%Z.

(** The values the demand score can take. *)
Definition demandValues : list number := [#1; #2; #3].

(** The sum of the four contributions the specification lists, before the
    cap. *)
Definition bonusSum (input : Flags.t) : number :=
  (if Flags.isFirstTimeDonor input then #1 else #0)
  + (if Flags.isThemeEvent input then dec 5 1 else #0)
  + (if Flags.isNewBook input then #2 else #0)
  + (if Flags.hasCraftMatch input then #1 else #0).

(** The breakdown block the scoring path appends to the provider's text:
    each component's score, its range and its credits, and the total. *)
Definition breakdownBlock (Number_toString : number -> string) (r : Output.t) : string :=
  nl ++ nl ++ "CREDIT BREAKDOWN:" ++ nl
  ++ "• Condition Score: " ++ Number_toString (Output.conditionScore r) ++ "/5 ("
  ++ Number_toString (conditionCredits (Output.creditBreakdown r)) ++ " credits)" ++ nl
  ++ "• Demand Score: " ++ Number_toString (Output.demandScore r) ++ "/3 ("
  ++ Number_toString (demandCredits (Output.creditBreakdown r)) ++ " credits)" ++ nl
  ++ "• Rarity Score: " ++ Number_toString (Output.rarityScore r) ++ "/1 ("
  ++ Number_toString (rarityCredits (Output.creditBreakdown r)) ++ " credits)" ++ nl
  ++ "• Bonus Factors: " ++ Number_toString (Output.bonusFactors r) ++ " ("
  ++ Number_toString (bonusCredits (Output.creditBreakdown r)) ++ " credits)" ++ nl
  ++ "• TOTAL: " ++ Number_toString (Output.finalCredits r) ++ " credits".

(** Sample data: a provider answer for a book in good condition with minor
    annotations, the same answer flagged for rejection, a caller input, and a
    number printer. *)
Definition sampleOutput : Output.t :=
  {| Output.coverCondition := #8; Output.spineCondition := #9;
     Output.pagesCondition := #6; Output.bindingIntegrity := #7;
     Output.cleanliness := #8; Output.hasAnnotations := true;
     Output.annotationSeverity := minor; Output.isComplete := true;
     Output.shouldReject := false;
     Output.conditionScore := #0; Output.demandScore := #0;
     Output.rarityScore := #0; Output.bonusFactors := #0;
     Output.finalCredits := #0;
     Output.creditBreakdown := mkBreakdown #0 #0 #0 #0;
     Output.justification := "Light shelf wear; a few pencil notes." |}.

Definition sampleRejected : Output.t :=
  {| Output.coverCondition := #8; Output.spineCondition := #9;
     Output.pagesCondition := #6; Output.bindingIntegrity := #7;
     Output.cleanliness := #8; Output.hasAnnotations := true;
     Output.annotationSeverity := minor; Output.isComplete := false;
     Output.shouldReject := false;
     Output.conditionScore := #0; Output.demandScore := #0;
     Output.rarityScore := #0; Output.bonusFactors := #0;
     Output.finalCredits := #0;
     Output.creditBreakdown := mkBreakdown #0 #0 #0 #0;
     Output.justification := "Several pages are missing." |}.

Definition sampleInput : Input.t :=
  {| Input.photoDataUris := [];
     Input.description := "Paperback, read once";
     Input.bookTitle := Some "A Fantasy Reader";
     Input.bookAuthor := None;
     Input.isFirstTimeDonor := true; Input.isThemeEvent := false;
     Input.isNewBook := false; Input.hasCraftMatch := true |}.

Definition samplePrinter : number -> string := fun _ => "#".

(* ================================================================== *)
(** ** The platform's [toLowerCase] and the framework's schema check *)
(* ================================================================== *)

(** *** [calculateDemandScore] on the platform's [toLowerCase]

    [String.prototype.toLowerCase] follows the Unicode case mappings: beyond
    the letters [A]-[Z] it also maps, for instance, the Kelvin sign U+212A to
    [k].  Here the function is a parameter, so that what is proved of the
    demand score holds for the platform's function, whatever it does outside
    ASCII. *)
Module Platform.

Section WithToLowerCase.

Variable toLowerCase : string -> string.

Definition calculateDemandScore (bookTitle bookAuthor : option string) : number :=
  if falsy bookTitle then #1
  else
    let title := toLowerCase (string_of bookTitle) in
    if some popularBooks (fun book => includes title book) then #3
    else if some trendingGenres (fun genre => includes title genre) then #2
    else #1.

End WithToLowerCase.

End Platform.

(** Every character of the string is an ASCII character. *)
Fixpoint asciiString (s : string) : bool :=
  match s with
  | EmptyString => true
  | String c s' => (nat_of_ascii c <? 128)%nat && asciiString s'
  end.

(** On ASCII strings [lower] folds the letters [A]-[Z] and keeps the rest,
    as [String.prototype.toLowerCase] does. *)
Definition foldsAscii (lower : string -> string) : Prop :=
  forall s : string, asciiString s = true -> lower s = toLowerCase s.

(** The Kelvin sign U+212A in UTF-8. *)
Definition kelvinSign : string :=
  String "226"%char (String "132"%char (String "170"%char EmptyString)).

(** A lower-casing that knows the Kelvin sign: it maps U+212A to [k] and
    folds [A]-[Z]. *)
Fixpoint toLowerCaseWithKelvin (s : string) : string :=
  match s with
  | EmptyString => EmptyString
  | String "226"%char (String "132"%char (String "170"%char rest)) =>
      String "k"%char (toLowerCaseWithKelvin rest)
  | String c rest => String (lower_char c) (toLowerCaseWithKelvin rest)
  end.

(** *** The flow as [ai.defineFlow] registers it

    [assessBookConditionFlow] above is the function passed to
    [ai.defineFlow]; the flow that is called is that function under the
    schemas given with it.  The framework checks the value the function
    returns against [outputSchema] and throws when it is outside the schema.
    The input schema accepts every [Input.t]. *)
Module Genkit.

(** [z.number().min(lo).max(hi)] *)
Definition numberBetween (lo hi x : number) : bool := (lo <=? x) && (x <=? hi).

(** [z.number().min(lo)] *)
Definition numberFrom (lo x : number) : bool := lo <=? x.

(** [z.number()]: any number but [NaN]. *)
Definition anyNumber (x : number) : bool := negb (is_nan x).

(** The fields under "AI Visual Assessment (0-10 scale)"; the booleans and
    the enumeration are valid by their types. *)
Definition visualAssessmentValid (o : Output.t) : bool :=
  numberBetween #0 #10 (Output.coverCondition o)
  && numberBetween #0 #10 (Output.spineCondition o)
  && numberBetween #0 #10 (Output.pagesCondition o)
  && numberBetween #0 #10 (Output.bindingIntegrity o)
  && numberBetween #0 #10 (Output.cleanliness o).

(** The fields under "Calculated Scores". *)
Definition calculatedScoresValid (o : Output.t) : bool :=
  numberBetween #0 #5 (Output.conditionScore o)
  && numberBetween #0 #3 (Output.demandScore o)
  && numberBetween #0 #1 (Output.rarityScore o)
  && numberBetween #0 #5 (Output.bonusFactors o).

(** The fields under "Final Results"; the justification is valid by its
    type. *)
Definition finalResultsValid (o : Output.t) : bool :=
  numberFrom #0 (Output.finalCredits o)
  && anyNumber (conditionCredits (Output.creditBreakdown o))
  && anyNumber (demandCredits (Output.creditBreakdown o))
  && anyNumber (rarityCredits (Output.creditBreakdown o))
  && anyNumber (bonusCredits (Output.creditBreakdown o)).

(** [AssessBookConditionOutputSchema], as the predicate it checks. *)
Definition AssessBookConditionOutputSchema (o : Output.t) : bool :=
  visualAssessmentValid o && calculatedScoresValid o && finalResultsValid o.

(** [ai.defineFlow({outputSchema}, fn)] applied to how [fn] completed.  The
    text of the framework's error is not modelled; the message stands for
    it. *)
Definition defineFlow (outputSchema : Output.t -> bool) (run : completion) : completion :=
  match run with
  | Return out =>
      if outputSchema out then Return out else Throw "Schema validation failed"
  | Throw message => Throw message
  end.

(** The flow [assessBookConditionFlow] as registered. *)
Definition assessBookConditionFlow (Number_toString : number -> string)
    (input : Input.t) (promptOutput : option Output.t) : completion :=
  defineFlow AssessBookConditionOutputSchema
    (assessBookConditionFlow Number_toString input promptOutput).

End Genkit.

(** The contribution of a cover or spine score when the comparisons are
    applied to any number: [+1] above 10, [-1] below 0, and the band of the
    specification in between. *)
Definition literalBand (x : number) : number :=
  if #10 <? x then #1 else if x <? #0 then - #1 else bandContribution x.

(** The same for the pages score. *)
Definition literalPage (x : number) : number :=
  if #10 <? x then #1 else if x <? #0 then - #1 else pageContribution x.

(** The number is above 10, or below 0, or an integer. *)
Definition outsideOrInteger (x : number) : bool :=
  (#10 <? x) || (x <? #0) || is_integer x.

(** A provider answer with a cover score of 15 and a spine score of -2. *)
Definition outOfRangeAnswer : Output.t :=
  {| Output.coverCondition := #15; Output.spineCondition := - #2;
     Output.pagesCondition := #8; Output.bindingIntegrity := #7;
     Output.cleanliness := #8; Output.hasAnnotations := false;
     Output.annotationSeverity := none; Output.isComplete := true;
     Output.shouldReject := false;
     Output.conditionScore := #0; Output.demandScore := #0;
     Output.rarityScore := #0; Output.bonusFactors := #0;
     Output.finalCredits := #0;
     Output.creditBreakdown := mkBreakdown #0 #0 #0 #0;
     Output.justification := "Clean copy." |}.

(** The scored record of the flow passes the checks on its calculated and
    final fields, for every triple of values the calculators can produce. *)
Definition scoredFieldsValid (c d b : number) : bool :=
  let final := calculateFinalCredits c d #0 b in
  Genkit.numberBetween #0 #5 c
  && Genkit.numberBetween #0 #3 d
  && Genkit.numberBetween #0 #1 #0
  && Genkit.numberBetween #0 #5 b
  && (Genkit.numberFrom #0 (Final.finalCredits final)
      && Genkit.anyNumber (conditionCredits (Final.breakdown final))
      && Genkit.anyNumber (demandCredits (Final.breakdown final))
      && Genkit.anyNumber (rarityCredits (Final.breakdown final))
      && Genkit.anyNumber (bonusCredits (Final.breakdown final))).

(* ================================================================== *)
(** ** Retrying, the exported wrapper and its caller *)
(* ================================================================== *)

(** A thrown value, as far as the code inspects it: the three properties
    read through optional chaining, each possibly absent. *)
Module Err.
Record t : Type := mk {
  status : option number;
  statusText : option string;
  message : option string
}.
End Err.

(** [new Error(message)]. *)
Definition Error (message : string) : Err.t :=
  {| Err.status := None; Err.statusText := None; Err.message := Some message |}.

(** How a promise settles. *)
Inductive settled (T : Type) : Type :=
| Resolved (value : T)
| Rejected (error : Err.t).

Arguments Resolved {T} value.
Arguments Rejected {T} error.

(** [error?.status === n] *)
Definition status_is (error : Err.t) (n : number) : bool :=
  match Err.status error with
  | Some s => s === n
  | None => false
  end.

(** [error?.statusText === s] *)
Definition statusText_is (error : Err.t) (s : string) : bool :=
  match Err.statusText error with
  | Some t => String.eqb t s
  | None => false
  end.

(** The truthiness of [error?.message?.includes(s)]. *)
Definition message_includes (error : Err.t) (s : string) : bool :=
  match Err.message error with
  | Some m => includes m s
  | None => false
  end.

(** The condition under which [retryWithBackoff] waits and tries again. *)
Definition overloaded (error : Err.t) : bool :=
  status_is error #503
  || statusText_is error "Service Unavailable"
  || message_includes error "overloaded".

(** [isRetryableError]: the truthiness of the value it returns. *)
Definition isRetryableError (error : Err.t) : bool :=
  status_is error #503
  || statusText_is error "Service Unavailable"
  || message_includes error "overloaded"
  || message_includes error "quota"
  || message_includes error "rate limit".

(** What a run of [retryWithBackoff] did: how it settled, how many times it
    called [fn], and the delays it waited, in order. *)
Record RetryRun (T : Type) : Type := mkRun {
  outcome : settled T;
  calls : nat;
  delays : list number
}.

Arguments mkRun {T} outcome calls delays.
Arguments outcome {T} r.
Arguments calls {T} r.
Arguments delays {T} r.

Section Retry.

Variable T : Type.

(** [fn i] is how the call of [fn] in iteration [i] settles, and [random i]
    is what [Math.random()] returns in that iteration. *)
Variable fn : nat -> settled T.
Variable random : nat -> number.

(** [maxRetries] is an integer count, possibly zero or negative, as at every
    call in the repository, where it is the default 3.  The model does not
    cover a [maxRetries] that is not an integer, nor one from 2^53 on, where
    [i++] and [maxRetries - 1] are no longer exact. *)
Variable maxRetries : Z.
Variable baseDelay : number.

(** The [for] loop from iteration [i] on, with the delays waited so far.
    [fuel] bounds the number of iterations. *)
Fixpoint retryLoop (fuel : nat) (i : nat) (waited : list number) : RetryRun T :=
  match fuel with
  | O => mkRun (Rejected (Error "Max retries exceeded")) i waited
  | S fuel' =>
      if (Z.of_nat i <? maxRetries)%Z then
        match fn i with
        | Resolved value => mkRun (Resolved value) (S i) waited
        | Rejected error =>
            if (Z.of_nat i =? maxRetries - 1)%Z then mkRun (Rejected error) (S i) waited
            else if overloaded error then
              let delay := baseDelay * #(2 ^ Z.of_nat i) + random i * #1000 in
              retryLoop fuel' (S i) (waited ++ [delay])
            else mkRun (Rejected error) (S i) waited
        end
      else mkRun (Rejected (Error "Max retries exceeded")) i waited
  end.

(** [retryWithBackoff(fn, maxRetries, baseDelay)]; the loop runs at most
    [maxRetries] iterations. *)
Definition retryWithBackoff : RetryRun T :=
  retryLoop (Z.to_nat maxRetries) 0 [].

End Retry.

(** How [await prompt(input)] settles: it throws, or it resolves with an
    output that may be missing. *)
Inductive promptOutcome : Type :=
| PromptThrows (error : Err.t)
| PromptResolves (output : option Output.t).

(** One call of [assessBookConditionFlow(input)], as a promise. *)
Definition flowAttempt (Number_toString : number -> string) (input : Input.t)
    (p : promptOutcome) : settled Output.t :=
  match p with
  | PromptThrows error => Rejected error
  | PromptResolves output =>
      match assessBookConditionFlow Number_toString input output with
      | Return out => Resolved out
      | Throw message => Rejected (Error message)
      end
  end.

(** The record [assessBookCondition] returns when every retry failed. *)
Definition fallbackResponse : Output.t :=
  {| Output.coverCondition := #5;
     Output.spineCondition := #5;
     Output.pagesCondition := #5;
     Output.bindingIntegrity := #5;
     Output.cleanliness := #5;
     Output.hasAnnotations := false;
     Output.annotationSeverity := none;
     Output.isComplete := true;
     Output.shouldReject := false;
     Output.conditionScore := dec 25 1;
     Output.demandScore := #1;
     Output.rarityScore := #0;
     Output.bonusFactors := #0;
     Output.finalCredits := #1;
     Output.creditBreakdown :=
       {| conditionCredits := #1;
          demandCredits := #0;
          rarityCredits := #0;
          bonusCredits := #0 |};
     Output.justification :=
       "Unable to assess condition due to service availability. Please try again later or contact support." |}.

(** The run of [retryWithBackoff(() => assessBookConditionFlow(input))]
    inside [assessBookCondition], with the default [maxRetries = 3] and
    [baseDelay = 1000]; [prompts i] is how the prompt settles in call [i]. *)
Definition assessBookConditionRun (Number_toString : number -> string)
    (input : Input.t) (prompts : nat -> promptOutcome) (random : nat -> number)
    : RetryRun Output.t :=
  retryWithBackoff (fun i => flowAttempt Number_toString input (prompts i))
    random 3 #1000.

(** [assessBookCondition(input)]: the flow's output, or the fallback when
    the retries end in an error. *)
Definition assessBookCondition (Number_toString : number -> string)
    (input : Input.t) (prompts : nat -> promptOutcome) (random : nat -> number)
    : Output.t :=
  match outcome (assessBookConditionRun Number_toString input prompts random) with
  | Resolved out => out
  | Rejected _ => fallbackResponse
  end.

(** *** The caller: [handleAssessCondition] of the intake component *)

Inductive Step : Type :=
| WELCOME
| METADATA_CAPTURE
| METADATA_LOADING
| METADATA_CONFIRM
| CONDITION_CAPTURE
| ASSESSMENT_LOADING
| ASSESSMENT_CONFIRM
| SUCCESS.

(** [CapturedImageData] *)
Module Photo.
Record t : Type := mk {
  label : string;
  dataUri : string
}.
End Photo.

(** [ExtractBookMetadataOutput] *)
Module Metadata.
Record t : Type := mk {
  title : string;
  author : string
}.
End Metadata.

(** The argument of [toast]. *)
Module Toast.
Record t : Type := mk {
  variant : string;
  title : string;
  description : string
}.
End Toast.

(** The component state [handleAssessCondition] writes, and the toasts shown
    so far. *)
Module UI.
Record t : Type := mk {
  step : Step;
  assessment : option Output.t;
  toasts : list Toast.t
}.
End UI.

(** A string is truthy when it is not empty. *)
Definition truthy (s : string) : bool :=
  match s with
  | EmptyString => false
  | String _ _ => true
  end.

(** The input object [handleAssessCondition] passes to
    [assessBookCondition]. *)
Definition assessmentRequest (metadata : option Metadata.t)
    (validPhotos : list Photo.t) : Input.t :=
  {| Input.photoDataUris :=
       map (fun photo => (Photo.label photo, Photo.dataUri photo)) validPhotos;
     Input.description :=
       "User did not provide a description. Assess based on images.";
     Input.bookTitle := option_map Metadata.title metadata;
     Input.bookAuthor := option_map Metadata.author metadata;
     Input.isFirstTimeDonor := false;
     Input.isThemeEvent := false;
     Input.isNewBook := false;
     Input.hasCraftMatch := false |}.

(** [handleAssessCondition(photos)]: [metadata] is the value its closure
    holds, [call] is how the awaited [assessBookCondition] settles for a given
    input, and [ui] is the state before; the result is the state once the
    handler has finished (the step it ends on, after the intermediate
    [ASSESSMENT_LOADING]). *)
Definition handleAssessCondition (metadata : option Metadata.t)
    (call : Input.t -> settled Output.t) (photos : list Photo.t) (ui : UI.t) : UI.t :=
  let failed :=
    {| UI.step := CONDITION_CAPTURE;
       UI.assessment := UI.assessment ui;
       UI.toasts :=
         UI.toasts ui ++
         [ {| Toast.variant := "destructive";
              Toast.title := "An Error Occurred";
              Toast.description := "Something went wrong. Please try again later." |} ] |} in
  let validPhotos :=
    filter (fun photo => truthy (Photo.label photo) && truthy (Photo.dataUri photo))
      photos in
  if negb (List.length validPhotos =? List.length photos)%nat then failed
  else
    match call (assessmentRequest metadata validPhotos) with
    | Resolved result =>
        {| UI.step := ASSESSMENT_CONFIRM;
           UI.assessment := Some result;
           UI.toasts := UI.toasts ui |}
    | Rejected _ => failed
    end.

(* ================================================================== *)
(** ** Further vocabulary *)
(* ================================================================== *)

(** The condition score as a function of the four contributions. *)
Definition scoreFrom (cover spine page annotation : number) : number :=
  Math_min #5
    (Math_max #0
       (Math_max #0 (#3 + cover + spine + page + annotation + completenessScore))).

(** The contributions a feature and an annotation severity can make. *)
Definition bandValues : list number := [#1; #0; - #1].
Definition pageValues : list number := [#1; - #1].
Definition penaltyValues : list number := [#0; - n0_5; - #1].

(** [y] is [x] or a number at least [x]. *)
Definition no_worse (x y : number) : Prop := x = y \/ (x <=? y) = true.

(** Annotation severities in increasing order. *)
Definition severityRank (s : AnnotationSeverity) : nat :=
  match s with none => 0 | minor => 1 | heavy => 2 end.

(** The sum of the four reported components of a breakdown. *)
Definition breakdownSum (b : CreditBreakdown) : number :=
  conditionCredits b + demandCredits b + rarityCredits b + bonusCredits b.

(** [P] holds of every triple of values the condition, demand and bonus
    calculators can produce. *)
Definition engineTable (P : number -> number -> number -> bool) : bool :=
  forallb (fun c => forallb (fun d => forallb (fun b => P c d b)
    bonusValues) demandValues) conditionValues.

(** A flag that is set stays set. *)
Definition flagsUpTo (f1 f2 : Flags.t) : bool :=
  implb (Flags.isFirstTimeDonor f1) (Flags.isFirstTimeDonor f2)
  && implb (Flags.isThemeEvent f1) (Flags.isThemeEvent f2)
  && implb (Flags.isNewBook f1) (Flags.isNewBook f2)
  && implb (Flags.hasCraftMatch f1) (Flags.hasCraftMatch f2).

(** Iteration [k] of the retry loop fails with an error that is waited
    on. *)
Definition waitedOn (T : Type) (fn : nat -> settled T) (k : nat) : Prop :=
  exists error, fn k = Rejected error /\ overloaded error = true.

(** Rewrites an integer literal into the binary64 value it denotes. *)
Ltac literal z :=
  let v := eval vm_compute in (of_Z z) in
  change (of_Z z) with v in *.

Ltac literals := literal 0%Z; literal 7%Z; literal 8%Z; literal 9%Z; literal 10%Z.

(* ================================================================== *)
(** ** Comparisons of binary64 values *)
(* ================================================================== *)

Lemma compare_cont_Eq (p q : positive) :
  Pos.compare_cont Eq p q = (Z.pos p ?= Z.pos q)%Z.
Proof. reflexivity. Qed.

Lemma SFleb_finite_l (mk : positive) (ek : Z) (c : number) :
  SFleb (S754_finite false mk ek) c = true <-> at_least mk ek c.
Proof.
  unfold SFleb, at_least.
  destruct c as [s | s | | s m e]; try destruct s; simpl;
    try (split; [discriminate | contradiction]); try tauto.
  rewrite compare_cont_Eq.
  destruct (Z.compare_spec ek e); destruct (Z.compare_spec (Z.pos mk) (Z.pos m));
    split; intros; try discriminate; try reflexivity; lia.
Qed.

Lemma SFltb_finite_l (mk : positive) (ek : Z) (c : number) :
  SFltb (S754_finite false mk ek) c = true <-> above mk ek c.
Proof.
  unfold SFltb, above.
  destruct c as [s | s | | s m e]; try destruct s; simpl;
    try (split; [discriminate | contradiction]); try tauto.
  rewrite compare_cont_Eq.
  destruct (Z.compare_spec ek e); destruct (Z.compare_spec (Z.pos mk) (Z.pos m));
    split; intros; try discriminate; try reflexivity; lia.
Qed.

Lemma SFleb_finite_r (mk : positive) (ek : Z) (c : number) :
  SFleb c (S754_finite false mk ek) = true <-> at_most mk ek c.
Proof.
  unfold SFleb, at_most.
  destruct c as [s | s | | s m e]; try destruct s; simpl;
    try (split; [discriminate | contradiction]); try tauto;
    try (split; [discriminate | discriminate]).
  rewrite compare_cont_Eq.
  destruct (Z.compare_spec e ek); destruct (Z.compare_spec (Z.pos m) (Z.pos mk));
    split; intros; try discriminate; try reflexivity; lia.
Qed.

(** A negative number is below every positive finite threshold. *)
Lemma negative_not_at_least (mk : positive) (ek : Z) (c : number) :
  SFltb c (S754_zero false) = true -> SFleb (S754_finite false mk ek) c = false.
Proof.
  unfold SFltb, SFleb.
  destruct c as [s | s | | s m e]; try destruct s; simpl;
    try discriminate; reflexivity.
Qed.

(** Above 10, every threshold of the condition score is met. *)
Lemma above_ten_meets_thresholds (c : number) :
  (#10 <? c) = true ->
  (c >=? #9) = true /\ (c >=? #8) = true /\ (c >=? #7) = true.
Proof.
  unfold lt, ge. literals.
  rewrite SFltb_finite_l, !SFleb_finite_l.
  destruct c as [s | s | | s m e]; try destruct s; simpl; try tauto.
  intros [H | [-> H]]; repeat split; lia.
Qed.

(** Below 0, no threshold of the condition score is met. *)
Lemma negative_meets_no_threshold (c : number) :
  (c <? #0) = true ->
  (c >=? #9) = false /\ (c >=? #8) = false /\ (c >=? #7) = false.
Proof.
  unfold lt, ge. literals.
  intros H. repeat split; apply negative_not_at_least; exact H.
Qed.

(** An integer from 7 up that is not 9 or more is at most 8. *)
Lemma integer_band (c : number) :
  is_integer c = true -> (c >=? #7) = true -> (c >=? #9) = false ->
  (c <=? #8) = true.
Proof.
  unfold ge, le. literals.
  intros Hint H7 H9.
  apply SFleb_finite_l in H7. apply SFleb_finite_r.
  assert (N9 : ~ at_least 5066549580791808 (-49) c).
  { intro A. apply SFleb_finite_l in A. congruence. }
  destruct c as [s | s | | s m e]; try destruct s;
    simpl in H7, N9 |- *; try tauto.
  assert (Hc : e = (-50)%Z \/ (e = (-49)%Z /\ (Z.pos m < 5066549580791808)%Z))
    by (clear Hint H9; lia).
  destruct Hc as [-> | [-> Hm]]; [left; lia | right; split; [reflexivity |]].
  change ((Z.pos m mod 562949953421312 =? 0)%Z = true) in Hint.
  apply Z.eqb_eq in Hint.
  apply Z.mod_divide in Hint; [| discriminate].
  destruct Hint as [q Hq].
  clear H7 N9 H9.
  assert (q <= 8)%Z by lia. lia.
Qed.

(** On integers the source's cascade of comparisons is the band of the
    specification. *)
Lemma band_on_integers (c : number) :
  is_integer c = true ->
  (if c >=? #9 then #1 else if c >=? #7 then #0 else - #1) = bandContribution c.
Proof.
  intros Hint. unfold bandContribution, within.
  destruct (c >=? #9) eqn:H9; [reflexivity |].
  change (#7 <=? c) with (c >=? #7).
  destruct (c >=? #7) eqn:H7; [| reflexivity].
  rewrite (integer_band _ Hint H7 H9). reflexivity.
Qed.

(** Off the integers the two differ: at 8.5 the source's cascade gives [0],
    while 8.5 is outside [[7,8]]. *)
Example band_off_integers :
  is_integer (dec 85 1) = false /\
  coverScore (Assessment.mk (dec 85 1) #0 #0 #0 #0 false none) = #0 /\
  bandContribution (dec 85 1) = - #1.
Proof. repeat split. Qed.

(** [Math.max(0, Math.max(0, x))] is [Math.max(0, x)]. *)
Lemma Math_max_zero_idem (x : number) :
  Math_max #0 (Math_max #0 x) = Math_max #0 x.
Proof. destruct x as [[] | [] | | [] m e]; reflexivity. Qed.

Lemma calculateConditionScore_clamp (a : Assessment.t) :
  calculateConditionScore a =
  clamp (#3 + coverScore a + spineScore a + pageScore a + annotationScore a + #1) #0 #5.
Proof.
  unfold calculateConditionScore, baseScore, clamp, completenessScore.
  rewrite Math_max_zero_idem. reflexivity.
Qed.

Lemma calculateConditionScore_values (a : Assessment.t) :
  In (calculateConditionScore a) conditionValues.
Proof.
  unfold calculateConditionScore, baseScore, coverScore, spineScore, pageScore,
    annotationScore.
  destruct (Assessment.coverCondition a >=? #9);
    [| destruct (Assessment.coverCondition a >=? #7)];
    (destruct (Assessment.spineCondition a >=? #9);
      [| destruct (Assessment.spineCondition a >=? #7)]);
    destruct (Assessment.pagesCondition a >=? #8);
    destruct (Assessment.annotationSeverity a);
    vm_compute; repeat (first [left; reflexivity | right]).
Qed.

Lemma calculateConditionScore_bounds (a : Assessment.t) :
  (#0 <=? calculateConditionScore a) = true /\ (calculateConditionScore a <=? #5) = true.
Proof.
  pose proof (calculateConditionScore_values a) as H.
  set (v := calculateConditionScore a) in *. clearbody v.
  simpl in H.
  repeat (destruct H as [<- | H]; [split; vm_compute; reflexivity |]).
  contradiction.
Qed.

(* ================================================================== *)
(** ** Strings *)
(* ================================================================== *)

Lemma append_assoc (s t u : string) : (s ++ t) ++ u = s ++ (t ++ u).
Proof. induction s as [| c s IH]; simpl; [reflexivity | now rewrite IH]. Qed.

Lemma prefix_iff (p s : string) :
  prefix p s = true <-> exists post, s = p ++ post.
Proof.
  revert s. induction p as [| c p IH]; intros s.
  - destruct s; simpl; split; intros; try reflexivity; eexists; reflexivity.
  - destruct s as [| d s]; simpl.
    + split; [discriminate | intros [post H]; discriminate].
    + destruct (ascii_dec c d) as [-> | Ne].
      * rewrite IH. split; intros [post H]; exists post.
        -- now rewrite H.
        -- now injection H.
      * split; [discriminate |].
        intros [post H]. injection H as H1 H2. congruence.
Qed.

Lemma prefix_append (s t : string) : prefix s (s ++ t) = true.
Proof. apply prefix_iff. now exists t. Qed.

(** [includes] decides the occurrence of a substring. *)
Lemma includes_Substring (s sub : string) :
  includes s sub = true <-> Substring sub s.
Proof.
  unfold Substring. induction s as [| c s IH].
  - change (includes "" sub) with (if prefix sub "" then true else false).
    destruct (prefix sub "") eqn:P.
    + split; [intros _ | reflexivity].
      apply prefix_iff in P. destruct P as [post P]. now exists "", post.
    + split; [discriminate |].
      intros [pre [post H]].
      destruct pre; [| discriminate].
      assert (prefix sub "" = true) by (apply prefix_iff; now exists post).
      congruence.
  - change (includes (String c s) sub)
      with (if prefix sub (String c s) then true else includes s sub).
    destruct (prefix sub (String c s)) eqn:P.
    + split; [intros _ | reflexivity].
      apply prefix_iff in P. destruct P as [post P]. now exists "", post.
    + rewrite IH. split.
      * intros [pre [post H]]. exists (String c pre), post. simpl. now rewrite H.
      * intros [pre [post H]]. destruct pre as [| d pre].
        -- assert (prefix sub (String c s) = true) by (apply prefix_iff; now exists post).
           congruence.
        -- simpl in H. injection H as _ H. now exists pre, post.
Qed.

(** [some] over [includes] finds an entry of the list that occurs in the
    title. *)
Lemma some_includes (entries : list string) (title : string) :
  some entries (fun entry => includes title entry) = true <->
  exists entry, In entry entries /\ Substring entry title.
Proof.
  unfold some. rewrite existsb_exists.
  split; intros [entry [HIn H]]; exists entry; split; trivial;
    now apply includes_Substring.
Qed.

(* ================================================================== *)
(** ** The demand score, the bonus factors and the final credits *)
(* ================================================================== *)

Lemma calculateDemandScore_values (bookTitle bookAuthor : option string) :
  In (calculateDemandScore bookTitle bookAuthor) demandValues.
Proof.
  unfold calculateDemandScore.
  destruct (falsy bookTitle); [now left |].
  destruct (some popularBooks _); [right; right; now left |].
  destruct (some trendingGenres _); [right; now left | now left].
Qed.

Lemma calculateBonusFactors_values (input : Flags.t) :
  In (calculateBonusFactors input) bonusValues.
Proof.
  apply in_map.
  destruct input as [[] [] [] []]; simpl; tauto.
Qed.

(** Over every value the three calculators can produce, the final credits
    are at least 0.3. *)
Lemma final_credits_floor_table :
  forallb (fun c => forallb (fun d => forallb (fun b =>
     dec 3 1 <=? Final.finalCredits (calculateFinalCredits c d #0 b))
     bonusValues) demandValues)
     conditionValues = true.
Proof. vm_compute. reflexivity. Qed.

Lemma final_credits_floor (a : Assessment.t) (t u : option string) (f : Flags.t) :
  (dec 3 1 <=? Final.finalCredits
     (calculateFinalCredits (calculateConditionScore a) (calculateDemandScore t u)
        (calculateRarityScore t u) (calculateBonusFactors f))) = true.
Proof.
  pose proof final_credits_floor_table as T.
  rewrite forallb_forall in T.
  specialize (T _ (calculateConditionScore_values a)).
  rewrite forallb_forall in T.
  specialize (T _ (calculateDemandScore_values t u)).
  rewrite forallb_forall in T.
  exact (T _ (calculateBonusFactors_values f)).
Qed.

(** Binary rounding does not show: on every triple of values the three
    calculators can produce (condition [k/2], demand [d], the bonus of a
    combination of flags), the final credits are the binary64 value of the
    exact decimal [(25k + 30d) / 100 + bonus]. *)
Lemma final_credits_exact_table :
  forallb (fun k => forallb (fun d => forallb (fun f =>
     Final.finalCredits
       (calculateFinalCredits (dec (5 * k) 1) (of_Z d) #0 (calculateBonusFactors f))
     === dec (25 * k + 30 * d + bonusHundredths f) 2)
     allFlags) [1; 2; 3]%Z) [0; 1; 2; 3; 4; 5; 6; 7; 8; 9; 10]%Z = true.
Proof. vm_compute. reflexivity. Qed.

(** The final credits are rounded from the unrounded sum, not from the
    rounded components: at condition 0.01 and rarity 0.05 the components
    round to 0.01 and 0.01 while the final credits are 0.01. *)
Example final_credits_rounds_the_sum :
  calculateFinalCredits (dec 1 2) #0 (dec 5 2) #0 =
  {| Final.finalCredits := dec 1 2;
     Final.breakdown := mkBreakdown (dec 1 2) #0 (dec 1 2) #0 |}.
Proof. vm_compute. reflexivity. Qed.

(** A number that is at least 0.3 is not equal to 0. *)
Lemma at_least_0_3_nonzero (x : number) :
  (dec 3 1 <=? x) = true -> (x === #0) = false.
Proof.
  unfold le, strict_eq.
  replace (dec 3 1) with (S754_finite false 5404319552844595 (-54))
    by (vm_compute; reflexivity).
  rewrite SFleb_finite_l.
  destruct x as [s | s | | s m e]; try destruct s; simpl; try tauto;
    intros _; reflexivity.
Qed.

(* ================================================================== *)
(** ** The flow, path by path *)
(* ================================================================== *)

Section FlowPaths.

Variable Number_toString : number -> string.
Variables (input : Input.t) (output : Output.t).

(** The rejection path. *)
Lemma flow_rejected :
  rejected output = true ->
  assessBookConditionFlow Number_toString input (Some output) =
  Return
    {| Output.coverCondition := Output.coverCondition output;
       Output.spineCondition := Output.spineCondition output;
       Output.pagesCondition := Output.pagesCondition output;
       Output.bindingIntegrity := Output.bindingIntegrity output;
       Output.cleanliness := Output.cleanliness output;
       Output.hasAnnotations := Output.hasAnnotations output;
       Output.annotationSeverity := Output.annotationSeverity output;
       Output.isComplete := Output.isComplete output;
       Output.shouldReject := Output.shouldReject output;
       Output.conditionScore := #0;
       Output.demandScore := #0;
       Output.rarityScore := #0;
       Output.bonusFactors := #0;
       Output.finalCredits := #0;
       Output.creditBreakdown := mkBreakdown #0 #0 #0 #0;
       Output.justification :=
               Output.justification output
               ++ " - Book rejected due to severe damage or missing pages." |}.
Proof.
  unfold rejected, assessBookConditionFlow. intros ->. reflexivity.
Qed.

(** The scoring path. *)
Lemma flow_scored :
  rejected output = false ->
  let conditionScore := calculateConditionScore (assessmentOf output) in
  let demandScore :=
    calculateDemandScore (Input.bookTitle input) (Input.bookAuthor input) in
  let rarityScore :=
    calculateRarityScore (Input.bookTitle input) (Input.bookAuthor input) in
  let bonusFactors := calculateBonusFactors (flagsOf input) in
  let final :=
    calculateFinalCredits conditionScore demandScore rarityScore bonusFactors in
  assessBookConditionFlow Number_toString input (Some output) =
  Return
    {| Output.coverCondition := Output.coverCondition output;
       Output.spineCondition := Output.spineCondition output;
       Output.pagesCondition := Output.pagesCondition output;
       Output.bindingIntegrity := Output.bindingIntegrity output;
       Output.cleanliness := Output.cleanliness output;
       Output.hasAnnotations := Output.hasAnnotations output;
       Output.annotationSeverity := Output.annotationSeverity output;
       Output.isComplete := Output.isComplete output;
       Output.shouldReject := Output.shouldReject output;
       Output.conditionScore := conditionScore;
       Output.demandScore := demandScore;
       Output.rarityScore := rarityScore;
       Output.bonusFactors := bonusFactors;
       Output.finalCredits := Final.finalCredits final;
       Output.creditBreakdown := Final.breakdown final;
       Output.justification :=
         enhancedJustification Number_toString output conditionScore demandScore
           rarityScore bonusFactors (Final.finalCredits final)
           (Final.breakdown final) |}.
Proof.
  unfold rejected, assessBookConditionFlow. intros ->. reflexivity.
Qed.

End FlowPaths.

Lemma rejected_iff (output : Output.t) :
  rejected output = true <->
  Output.shouldReject output = true \/ Output.isComplete output = false.
Proof.
  unfold rejected.
  destruct (Output.shouldReject output), (Output.isComplete output); simpl;
    intuition discriminate.
Qed.

Lemma not_rejected_iff (output : Output.t) :
  rejected output = false <->
  Output.shouldReject output = false /\ Output.isComplete output = true.
Proof.
  unfold rejected.
  destruct (Output.shouldReject output), (Output.isComplete output); simpl;
    intuition discriminate.
Qed.

(* ================================================================== *)
(** ** The properties of the specification *)
(* ================================================================== *)

(** C1. Rejection short-circuit: when the provider's answer has
    [shouldReject] set or [isComplete] unset, the flow returns an output whose
    four scores, final credits and four breakdown components are exactly 0,
    and whose justification is the provider's text followed by the rejection
    sentence; the same output is returned whatever the caller's input is. *)
Theorem rejection_short_circuit
    (Number_toString : number -> string) (input : Input.t) (output : Output.t) :
  Output.shouldReject output = true \/ Output.isComplete output = false ->
  exists r : Output.t,
    assessBookConditionFlow Number_toString input (Some output) = Return r /\
    Output.conditionScore r = #0 /\
    Output.demandScore r = #0 /\
    Output.rarityScore r = #0 /\
    Output.bonusFactors r = #0 /\
    Output.finalCredits r = #0 /\
    conditionCredits (Output.creditBreakdown r) = #0 /\
    demandCredits (Output.creditBreakdown r) = #0 /\
    rarityCredits (Output.creditBreakdown r) = #0 /\
    bonusCredits (Output.creditBreakdown r) = #0 /\
    Output.justification r =
      Output.justification output
      ++ " - Book rejected due to severe damage or missing pages." /\
    forall (printer : number -> string) (input' : Input.t),
      assessBookConditionFlow printer input' (Some output) = Return r.
Proof.
  intros H. apply rejected_iff in H.
  eexists. split; [apply flow_rejected; exact H |].
  repeat split.
  intros printer input'. apply flow_rejected. exact H.
Qed.

Lemma rejection_short_circuit_witness :
  exists r : Output.t,
    assessBookConditionFlow samplePrinter sampleInput (Some sampleRejected) = Return r /\
    Output.finalCredits r = #0 /\
    Output.justification r =
      "Several pages are missing. - Book rejected due to severe damage or missing pages.".
Proof.
  destruct (rejection_short_circuit samplePrinter sampleInput sampleRejected
              (or_intror eq_refl))
    as [r (Hr & _ & _ & _ & _ & Hf & _ & _ & _ & _ & Hj & _)].
  exists r. repeat split; assumption.
Defined.

(** C2. Condition score: when the book is not rejected and the cover and
    spine scores are integers, as the data model has them, the flow's
    [conditionScore] is [clamp(3 + cover + spine + page + annotation + 1, 0, 5)]
    with the cover and the spine contributing [+1] from 9 up, [0] in [[7,8]]
    and [-1] otherwise, the pages [+1] from 8 up and [-1] otherwise, and the
    annotations [0], [-0.5] or [-1] by severity; the score lies in [[0,5]]. *)
Theorem condition_score_formula
    (Number_toString : number -> string) (input : Input.t) (output : Output.t) :
  Output.shouldReject output = false ->
  Output.isComplete output = true ->
  is_integer (Output.coverCondition output) = true ->
  is_integer (Output.spineCondition output) = true ->
  exists r : Output.t,
    assessBookConditionFlow Number_toString input (Some output) = Return r /\
    Output.conditionScore r =
      clamp (#3 + bandContribution (Output.coverCondition output)
                + bandContribution (Output.spineCondition output)
                + pageContribution (Output.pagesCondition output)
                + annotationPenalty (Output.annotationSeverity output)
                + #1) #0 #5 /\
    (#0 <=? Output.conditionScore r) = true /\
    (Output.conditionScore r <=? #5) = true.
Proof.
  intros Hs Hc Hcover Hspine.
  assert (Hr : rejected output = false) by (apply not_rejected_iff; now split).
  eexists. split; [apply flow_scored; exact Hr |].
  cbv beta iota zeta delta [Output.conditionScore].
  split; [| apply calculateConditionScore_bounds].
  rewrite calculateConditionScore_clamp.
  unfold coverScore, spineScore, pageScore, annotationScore, assessmentOf.
  cbv beta iota delta [Assessment.coverCondition Assessment.spineCondition
    Assessment.pagesCondition Assessment.annotationSeverity].
  rewrite (band_on_integers _ Hcover), (band_on_integers _ Hspine).
  reflexivity.
Qed.

Lemma condition_score_formula_witness :
  exists r : Output.t,
    assessBookConditionFlow samplePrinter sampleInput (Some sampleOutput) = Return r /\
    Output.conditionScore r = dec 35 1.
Proof.
  destruct (condition_score_formula samplePrinter sampleInput sampleOutput
              eq_refl eq_refl eq_refl eq_refl) as [r (Hr & Hc & _)].
  exists r. split; [exact Hr |]. rewrite Hc. vm_compute. reflexivity.
Defined.

(** C3. Final aggregation: for every four component scores, the credits are
    [conditionScore * 0.5], [demandScore * 0.3], [rarityScore * 0.1] and
    [bonusFactors]; [finalCredits] is the unrounded sum of the four, rounded
    to two decimal places, and each breakdown component is rounded to two
    decimal places on its own.  At scores 5, 3, 1 and 0 the breakdown is 2.5,
    0.9, 0.1 and 0, and the final credits are 3.5. *)
Theorem final_credits_weights_and_rounding :
  (forall conditionScore demandScore rarityScore bonusFactors : number,
     let result :=
       calculateFinalCredits conditionScore demandScore rarityScore bonusFactors in
     Final.finalCredits result =
       roundTo2 (conditionScore * dec 5 1 + demandScore * dec 3 1
                 + rarityScore * dec 1 1 + bonusFactors) /\
     conditionCredits (Final.breakdown result) = roundTo2 (conditionScore * dec 5 1) /\
     demandCredits (Final.breakdown result) = roundTo2 (demandScore * dec 3 1) /\
     rarityCredits (Final.breakdown result) = roundTo2 (rarityScore * dec 1 1) /\
     bonusCredits (Final.breakdown result) = roundTo2 bonusFactors) /\
  calculateFinalCredits #5 #3 #1 #0 =
    {| Final.finalCredits := dec 35 1;
       Final.breakdown :=
         {| conditionCredits := dec 25 1;
            demandCredits := dec 9 1;
            rarityCredits := dec 1 1;
            bonusCredits := #0 |} |}.
Proof.
  split.
  - intros c d r b. cbv zeta. repeat split.
  - vm_compute. reflexivity.
Qed.

(** C4. End-to-end scenario: cover 9, spine 9, pages 8, no annotations,
    complete, not rejected, no title and no contextual flag give condition
    score 5, demand score 1, rarity score 0, bonus 0, the breakdown 2.5, 0.3, 0
    and 0, and final credits 2.8, whatever the other fields hold. *)
Theorem end_to_end_scenario
    (Number_toString : number -> string)
    (photos : list (string * string)) (description : string)
    (bookAuthor : option string)
    (bindingIntegrity cleanliness : number) (hasAnnotations : bool)
    (cs ds rs bf fc : number) (cb : CreditBreakdown) (justification : string) :
  exists r : Output.t,
    assessBookConditionFlow Number_toString
      {| Input.photoDataUris := photos; Input.description := description;
         Input.bookTitle := None; Input.bookAuthor := bookAuthor;
         Input.isFirstTimeDonor := false; Input.isThemeEvent := false;
         Input.isNewBook := false; Input.hasCraftMatch := false |}
      (Some
         {| Output.coverCondition := #9; Output.spineCondition := #9;
            Output.pagesCondition := #8;
            Output.bindingIntegrity := bindingIntegrity;
            Output.cleanliness := cleanliness;
            Output.hasAnnotations := hasAnnotations;
            Output.annotationSeverity := none;
            Output.isComplete := true; Output.shouldReject := false;
            Output.conditionScore := cs; Output.demandScore := ds;
            Output.rarityScore := rs; Output.bonusFactors := bf;
            Output.finalCredits := fc; Output.creditBreakdown := cb;
            Output.justification := justification |}) = Return r /\
    Output.conditionScore r = #5 /\
    Output.demandScore r = #1 /\
    Output.rarityScore r = #0 /\
    Output.bonusFactors r = #0 /\
    conditionCredits (Output.creditBreakdown r) = dec 25 1 /\
    demandCredits (Output.creditBreakdown r) = dec 3 1 /\
    rarityCredits (Output.creditBreakdown r) = #0 /\
    bonusCredits (Output.creditBreakdown r) = #0 /\
    Output.finalCredits r = dec 28 1.
Proof.
  eexists. split; [apply flow_scored; reflexivity |].
  repeat split; vm_compute; reflexivity.
Qed.

(** C6. Bonus factors: for every combination of the four flags the bonus is
    [min(5, sum)] of the contributions 1 (first-time donor), 0.5 (theme
    event), 2 (new book) and 1 (craft match); with all four set it is exactly
    4.5, below the cap; it always lies in [[0,5]]. *)
Theorem bonus_factors_sum_capped :
  (forall input : Flags.t,
     calculateBonusFactors input = Math_min #5 (bonusSum input) /\
     (#0 <=? calculateBonusFactors input) = true /\
     (calculateBonusFactors input <=? #5) = true) /\
  calculateBonusFactors
    {| Flags.isFirstTimeDonor := true; Flags.isThemeEvent := true;
       Flags.isNewBook := true; Flags.hasCraftMatch := true |} = dec 45 1 /\
  (dec 45 1 <? #5) = true.
Proof.
  split; [| split; vm_compute; reflexivity].
  intros [[] [] [] []]; repeat split; vm_compute; reflexivity.
Qed.

(** C8. The condition score does not depend on [bindingIntegrity],
    [cleanliness] or [hasAnnotations]: two assessments that agree on the
    cover, spine and pages scores and on the annotation severity get the same
    score from [calculateConditionScore], and two provider answers that are
    not rejected and agree on those four fields get the same [conditionScore]
    and the same [conditionCredits] from the flow, whatever the other fields
    and the caller's inputs are. *)
Theorem condition_score_ignores_unused_fields :
  (forall a1 a2 : Assessment.t,
     Assessment.coverCondition a1 = Assessment.coverCondition a2 ->
     Assessment.spineCondition a1 = Assessment.spineCondition a2 ->
     Assessment.pagesCondition a1 = Assessment.pagesCondition a2 ->
     Assessment.annotationSeverity a1 = Assessment.annotationSeverity a2 ->
     calculateConditionScore a1 = calculateConditionScore a2) /\
  (forall (printer1 printer2 : number -> string) (input1 input2 : Input.t)
          (output1 output2 : Output.t),
     rejected output1 = false ->
     rejected output2 = false ->
     Output.coverCondition output1 = Output.coverCondition output2 ->
     Output.spineCondition output1 = Output.spineCondition output2 ->
     Output.pagesCondition output1 = Output.pagesCondition output2 ->
     Output.annotationSeverity output1 = Output.annotationSeverity output2 ->
     exists r1 r2 : Output.t,
       assessBookConditionFlow printer1 input1 (Some output1) = Return r1 /\
       assessBookConditionFlow printer2 input2 (Some output2) = Return r2 /\
       Output.conditionScore r1 = Output.conditionScore r2 /\
       conditionCredits (Output.creditBreakdown r1) =
       conditionCredits (Output.creditBreakdown r2)).
Proof.
  assert (same : forall a1 a2 : Assessment.t,
     Assessment.coverCondition a1 = Assessment.coverCondition a2 ->
     Assessment.spineCondition a1 = Assessment.spineCondition a2 ->
     Assessment.pagesCondition a1 = Assessment.pagesCondition a2 ->
     Assessment.annotationSeverity a1 = Assessment.annotationSeverity a2 ->
     calculateConditionScore a1 = calculateConditionScore a2).
  { intros a1 a2 Hc Hs Hp Ha.
    unfold calculateConditionScore, baseScore, coverScore, spineScore, pageScore,
      annotationScore.
    rewrite Hc, Hs, Hp, Ha. reflexivity. }
  split; [exact same |].
  intros p1 p2 i1 i2 o1 o2 R1 R2 Hc Hs Hp Ha.
  do 2 eexists.
  split; [apply flow_scored; exact R1 |].
  split; [apply flow_scored; exact R2 |].
  cbv beta iota zeta delta [Output.conditionScore Output.creditBreakdown
    calculateFinalCredits Final.breakdown conditionCredits].
  rewrite (same (assessmentOf o1) (assessmentOf o2)); [split; reflexivity | | | |];
    assumption.
Qed.

Lemma condition_score_ignores_unused_fields_witness :
  calculateConditionScore (Assessment.mk #9 #7 #8 #0 #10 true minor) =
  calculateConditionScore (Assessment.mk #9 #7 #8 #10 #3 false minor).
Proof.
  apply (proj1 condition_score_ignores_unused_fields); reflexivity.
Defined.

(** C9. The justification is only extended: on the rejection path the
    output's justification is the provider's text followed by the rejection
    sentence, on the scoring path it is the provider's text followed by the
    breakdown block; on both paths the provider's text is a prefix of it. *)
Theorem justification_is_extended
    (Number_toString : number -> string) (input : Input.t) (output : Output.t) :
  exists r : Output.t,
    assessBookConditionFlow Number_toString input (Some output) = Return r /\
    Output.justification r =
      Output.justification output
      ++ (if Output.shouldReject output || negb (Output.isComplete output)
          then " - Book rejected due to severe damage or missing pages."
          else breakdownBlock Number_toString r) /\
    prefix (Output.justification output) (Output.justification r) = true.
Proof.
  assert (extended : forall r suffix,
            Output.justification r = Output.justification output ++ suffix ->
            Output.justification r = Output.justification output ++ suffix /\
            prefix (Output.justification output) (Output.justification r) = true).
  { intros r suffix E. split; [exact E |]. rewrite E. apply prefix_append. }
  fold (rejected output).
  destruct (rejected output) eqn:R; eexists.
  - split; [apply flow_rejected; exact R |]. apply extended. reflexivity.
  - split; [apply flow_scored; exact R |]. apply extended.
    unfold breakdownBlock, enhancedJustification.
    cbv beta iota zeta delta [Output.justification Output.conditionScore
      Output.demandScore Output.rarityScore Output.bonusFactors Output.finalCredits
      Output.creditBreakdown].
    rewrite !append_assoc. reflexivity.
Qed.

(** C10. Zero credits exactly on rejection: when the book is not rejected
    the demand score is at least 1 and the final credits are at least 0.3;
    hence, for every input, the final credits are equal to 0 if and only if
    the book is rejected. *)
Theorem zero_credits_iff_rejected
    (Number_toString : number -> string) (input : Input.t) (output : Output.t) :
  exists r : Output.t,
    assessBookConditionFlow Number_toString input (Some output) = Return r /\
    (Output.shouldReject output = false -> Output.isComplete output = true ->
     (#1 <=? Output.demandScore r) = true /\
     (dec 3 1 <=? Output.finalCredits r) = true) /\
    ((Output.finalCredits r === #0) = true <->
     (Output.shouldReject output = true \/ Output.isComplete output = false)).
Proof.
  destruct (rejected output) eqn:R; eexists.
  - split; [apply flow_rejected; exact R |].
    split.
    + intros Hs Hc.
      assert (rejected output = false) by (apply not_rejected_iff; now split).
      congruence.
    + split; [intros _; apply rejected_iff; exact R | intros _; reflexivity].
  - split; [apply flow_scored; exact R |].
    cbv beta iota zeta delta [Output.demandScore Output.finalCredits].
    pose proof (final_credits_floor (assessmentOf output) (Input.bookTitle input)
                  (Input.bookAuthor input) (flagsOf input)) as F.
    split.
    + intros _ _. split; [| exact F].
      pose proof (calculateDemandScore_values (Input.bookTitle input)
                    (Input.bookAuthor input)) as D.
      destruct D as [<- | [<- | [<- | []]]]; reflexivity.
    + apply at_least_0_3_nonzero in F. rewrite F.
      split; [discriminate |].
      intros H. apply rejected_iff in H. congruence.
Qed.

Lemma zero_credits_iff_rejected_witness :
  exists r : Output.t,
    assessBookConditionFlow samplePrinter sampleInput (Some sampleOutput) = Return r /\
    (#1 <=? Output.demandScore r) = true /\
    (dec 3 1 <=? Output.finalCredits r) = true /\
    (Output.finalCredits r === #0) = false.
Proof.
  destruct (zero_credits_iff_rejected samplePrinter sampleInput sampleOutput)
    as [r (Hr & Hfloor & Hzero)].
  destruct (Hfloor eq_refl eq_refl) as [Hd Hf].
  exists r. repeat split; try assumption.
  destruct (Output.finalCredits r === #0); [| reflexivity].
  destruct (proj1 Hzero eq_refl) as [H | H]; discriminate H.
Defined.

(* ================================================================== *)
(** ** Further properties of the credit calculation *)
(* ================================================================== *)

(** A threshold met by a number is met by every number at least as large. *)
Lemma at_least_le (mk : positive) (ek : Z) (c1 c2 : number) :
  at_least mk ek c1 -> SFleb c1 c2 = true -> at_least mk ek c2.
Proof.
  unfold SFleb, at_least.
  destruct c1 as [s1 | s1 | | s1 m1 e1]; try destruct s1; try contradiction;
    destruct c2 as [s2 | s2 | | s2 m2 e2]; try destruct s2; simpl;
    try discriminate; try tauto.
  rewrite compare_cont_Eq.
  intros H.
  destruct (Z.compare_spec e1 e2); destruct (Z.compare_spec (Z.pos m1) (Z.pos m2));
    intros; try discriminate; lia.
Qed.

Lemma ge_no_worse (k : positive) (e : Z) (c1 c2 : number) :
  no_worse c1 c2 ->
  SFleb (S754_finite false k e) c1 = true -> SFleb (S754_finite false k e) c2 = true.
Proof.
  intros [-> | H] G; [exact G |].
  apply SFleb_finite_l. apply SFleb_finite_l in G.
  exact (at_least_le _ _ _ _ G H).
Qed.

(** The contribution of the cover does not decrease. *)
Lemma coverScore_no_worse (a1 a2 : Assessment.t) :
  no_worse (Assessment.coverCondition a1) (Assessment.coverCondition a2) ->
  (coverScore a1 <=? coverScore a2) = true.
Proof.
  intros H. unfold coverScore, ge. literals.
  pose proof (ge_no_worse 5066549580791808 (-49) H) as H9.
  pose proof (ge_no_worse 7881299347898368 (-50) H) as H7.
  destruct (SFleb (S754_finite false 5066549580791808 (-49)) (Assessment.coverCondition a1));
    [rewrite (H9 eq_refl); vm_compute; reflexivity |].
  destruct (SFleb (S754_finite false 7881299347898368 (-50)) (Assessment.coverCondition a1));
    [rewrite (H7 eq_refl) |];
    destruct (SFleb (S754_finite false 5066549580791808 (-49)) (Assessment.coverCondition a2));
    try (vm_compute; reflexivity);
    destruct (SFleb (S754_finite false 7881299347898368 (-50)) (Assessment.coverCondition a2));
    vm_compute; reflexivity.
Qed.

(** The contribution of the spine does not decrease. *)
Lemma spineScore_no_worse (a1 a2 : Assessment.t) :
  no_worse (Assessment.spineCondition a1) (Assessment.spineCondition a2) ->
  (spineScore a1 <=? spineScore a2) = true.
Proof.
  intros H. unfold spineScore, ge. literals.
  pose proof (ge_no_worse 5066549580791808 (-49) H) as H9.
  pose proof (ge_no_worse 7881299347898368 (-50) H) as H7.
  destruct (SFleb (S754_finite false 5066549580791808 (-49)) (Assessment.spineCondition a1));
    [rewrite (H9 eq_refl); vm_compute; reflexivity |].
  destruct (SFleb (S754_finite false 7881299347898368 (-50)) (Assessment.spineCondition a1));
    [rewrite (H7 eq_refl) |];
    destruct (SFleb (S754_finite false 5066549580791808 (-49)) (Assessment.spineCondition a2));
    try (vm_compute; reflexivity);
    destruct (SFleb (S754_finite false 7881299347898368 (-50)) (Assessment.spineCondition a2));
    vm_compute; reflexivity.
Qed.

(** The contribution of the pages does not decrease. *)
Lemma pageScore_no_worse (a1 a2 : Assessment.t) :
  no_worse (Assessment.pagesCondition a1) (Assessment.pagesCondition a2) ->
  (pageScore a1 <=? pageScore a2) = true.
Proof.
  intros H. unfold pageScore, ge. literals.
  pose proof (ge_no_worse 4503599627370496 (-49) H) as H8.
  destruct (SFleb (S754_finite false 4503599627370496 (-49)) (Assessment.pagesCondition a1));
    [rewrite (H8 eq_refl); vm_compute; reflexivity |].
  destruct (SFleb (S754_finite false 4503599627370496 (-49)) (Assessment.pagesCondition a2));
    vm_compute; reflexivity.
Qed.

(** A lighter annotation severity is penalised no more. *)
Lemma annotationScore_no_worse (a1 a2 : Assessment.t) :
  (severityRank (Assessment.annotationSeverity a2)
   <= severityRank (Assessment.annotationSeverity a1))%nat ->
  (annotationScore a1 <=? annotationScore a2) = true.
Proof.
  unfold annotationScore.
  destruct (Assessment.annotationSeverity a1), (Assessment.annotationSeverity a2);
    cbn [severityRank]; intros Hn; try lia; vm_compute; reflexivity.
Qed.

Lemma coverScore_values (a : Assessment.t) : In (coverScore a) bandValues.
Proof.
  unfold coverScore, bandValues.
  destruct (_ >=? #9); [| destruct (_ >=? #7)]; cbn [In]; tauto.
Qed.

Lemma spineScore_values (a : Assessment.t) : In (spineScore a) bandValues.
Proof.
  unfold spineScore, bandValues.
  destruct (_ >=? #9); [| destruct (_ >=? #7)]; cbn [In]; tauto.
Qed.

Lemma pageScore_values (a : Assessment.t) : In (pageScore a) pageValues.
Proof. unfold pageScore, pageValues. destruct (_ >=? #8); cbn [In]; tauto. Qed.

Lemma annotationScore_values (a : Assessment.t) : In (annotationScore a) penaltyValues.
Proof.
  unfold annotationScore, penaltyValues.
  destruct (Assessment.annotationSeverity a); cbn [In]; tauto.
Qed.

Lemma calculateConditionScore_scoreFrom (a : Assessment.t) :
  calculateConditionScore a =
  scoreFrom (coverScore a) (spineScore a) (pageScore a) (annotationScore a).
Proof. unfold calculateConditionScore, baseScore, scoreFrom. reflexivity. Qed.

(** Over all contributions, the score does not decrease when no
    contribution does. *)
Lemma scoreFrom_monotone_table :
  forallb (fun c1 => forallb (fun c2 => forallb (fun s1 => forallb (fun s2 =>
  forallb (fun p1 => forallb (fun p2 => forallb (fun n1 => forallb (fun n2 =>
    implb ((c1 <=? c2) && (s1 <=? s2) && (p1 <=? p2) && (n1 <=? n2))
          (scoreFrom c1 s1 p1 n1 <=? scoreFrom c2 s2 p2 n2))
  penaltyValues) penaltyValues) pageValues) pageValues)
  bandValues) bandValues) bandValues) bandValues = true.
Proof. vm_compute. reflexivity. Qed.

Lemma implb_elim (a b : bool) : implb a b = true -> a = true -> b = true.
Proof. destruct a, b; simpl; congruence. Qed.

(** Instantiates a [forallb] table at a member of its list. *)
Ltac pick T H := rewrite forallb_forall in T; specialize (T _ H).

(** The condition score does not decrease when no contribution does. *)
Lemma scoreFrom_no_worse (a1 a2 : Assessment.t) :
  (coverScore a1 <=? coverScore a2) = true ->
  (spineScore a1 <=? spineScore a2) = true ->
  (pageScore a1 <=? pageScore a2) = true ->
  (annotationScore a1 <=? annotationScore a2) = true ->
  (calculateConditionScore a1 <=? calculateConditionScore a2) = true.
Proof.
  intros Hc Hs Hp Hn.
  rewrite !calculateConditionScore_scoreFrom.
  pose proof scoreFrom_monotone_table as T.
  pick T (coverScore_values a1). pick T (coverScore_values a2).
  pick T (spineScore_values a1). pick T (spineScore_values a2).
  pick T (pageScore_values a1). pick T (pageScore_values a2).
  pick T (annotationScore_values a1). pick T (annotationScore_values a2).
  eapply implb_elim; [exact T |].
  rewrite Hc, Hs, Hp, Hn. reflexivity.
Qed.

(** X1. The condition score is monotone: an assessment whose cover, spine
    and pages scores are each the same or higher, and whose annotations are no
    heavier, never gets a lower condition score. *)
Theorem condition_score_monotone (a1 a2 : Assessment.t) :
  no_worse (Assessment.coverCondition a1) (Assessment.coverCondition a2) ->
  no_worse (Assessment.spineCondition a1) (Assessment.spineCondition a2) ->
  no_worse (Assessment.pagesCondition a1) (Assessment.pagesCondition a2) ->
  (severityRank (Assessment.annotationSeverity a2)
   <= severityRank (Assessment.annotationSeverity a1))%nat ->
  (calculateConditionScore a1 <=? calculateConditionScore a2) = true.
Proof.
  intros Hc Hs Hp Hn.
  apply scoreFrom_no_worse.
  - apply coverScore_no_worse. exact Hc.
  - apply spineScore_no_worse. exact Hs.
  - apply pageScore_no_worse. exact Hp.
  - apply annotationScore_no_worse. exact Hn.
Qed.

Lemma condition_score_monotone_witness :
  (calculateConditionScore (Assessment.mk #6 #7 #8 #5 #5 true minor)
   <=? calculateConditionScore (Assessment.mk #9 #7 #8 #5 #5 false none)) = true.
Proof.
  apply condition_score_monotone.
  - right. vm_compute. reflexivity.
  - left. reflexivity.
  - left. reflexivity.
  - simpl. lia.
Defined.

(** A property checked on the table of calculator values holds of every
    triple of scores the flow computes. *)
Lemma engineTable_sound (P : number -> number -> number -> bool) :
  engineTable P = true ->
  forall (a : Assessment.t) (t u : option string) (f : Flags.t),
    P (calculateConditionScore a) (calculateDemandScore t u) (calculateBonusFactors f)
    = true.
Proof.
  unfold engineTable. intros T a t u f.
  pick T (calculateConditionScore_values a).
  pick T (calculateDemandScore_values t u).
  pick T (calculateBonusFactors_values f).
  exact T.
Qed.

Lemma credit_bounds_table :
  engineTable (fun c d b =>
    let final := calculateFinalCredits c d #0 b in
    (#0 <=? Final.finalCredits final) && (Final.finalCredits final <=? dec 79 1)
    && (conditionCredits (Final.breakdown final) <=? dec 25 1)
    && (demandCredits (Final.breakdown final) <=? dec 9 1)
    && (bonusCredits (Final.breakdown final) <=? dec 45 1)) = true.
Proof. vm_compute. reflexivity. Qed.

(** X2. Credit bounds: whatever the provider answers and the caller
    passes, the flow's final credits lie between 0 and 7.9, the condition
    credits are at most 2.5, the demand credits at most 0.9, the rarity credits
    are 0 and the bonus credits at most 4.5; the bound 7.9 is reached. *)
Theorem flow_credit_bounds :
  (forall (Number_toString : number -> string) (input : Input.t) (output : Output.t),
     exists r : Output.t,
       assessBookConditionFlow Number_toString input (Some output) = Return r /\
       (#0 <=? Output.finalCredits r) = true /\
       (Output.finalCredits r <=? dec 79 1) = true /\
       (conditionCredits (Output.creditBreakdown r) <=? dec 25 1) = true /\
       (demandCredits (Output.creditBreakdown r) <=? dec 9 1) = true /\
       rarityCredits (Output.creditBreakdown r) = #0 /\
       (bonusCredits (Output.creditBreakdown r) <=? dec 45 1) = true) /\
  (exists (input : Input.t) (output : Output.t) (r : Output.t),
     assessBookConditionFlow samplePrinter input (Some output) = Return r /\
     Output.finalCredits r = dec 79 1).
Proof.
  split.
  - intros printer input output.
    destruct (rejected output) eqn:R; eexists.
    + split; [apply flow_rejected; exact R |]. repeat split.
    + split; [apply flow_scored; exact R |].
      pose proof (engineTable_sound _ credit_bounds_table (assessmentOf output)
                    (Input.bookTitle input) (Input.bookAuthor input) (flagsOf input)) as B.
      cbv beta zeta in B.
      apply andb_prop in B. destruct B as [B Hb].
      apply andb_prop in B. destruct B as [B Hd].
      apply andb_prop in B. destruct B as [B Hc].
      apply andb_prop in B. destruct B as [H0 H79].
      cbv beta iota zeta delta [Output.finalCredits Output.creditBreakdown].
      unfold calculateRarityScore.
      repeat split; assumption.
  - exists (Input.mk [] "" (Some "1984") None true true true true).
    exists (Output.mk #10 #10 #10 #10 #10 false none true false #0 #0 #0 #0 #0
              (mkBreakdown #0 #0 #0 #0) "").
    eexists. split; [apply flow_scored; reflexivity |].
    vm_compute. reflexivity.
Qed.

Lemma breakdown_sum_table :
  engineTable (fun c d b =>
    let final := calculateFinalCredits c d #0 b in
    Final.finalCredits final === breakdownSum (Final.breakdown final)) = true.
Proof. vm_compute. reflexivity. Qed.

(** X3. The reported breakdown adds up: on every output of the flow the
    final credits are equal to the binary64 sum of the four reported
    components, although the final credits are rounded from the unrounded
    sum. *)
Theorem flow_breakdown_adds_up
    (Number_toString : number -> string) (input : Input.t) (output : Output.t) :
  exists r : Output.t,
    assessBookConditionFlow Number_toString input (Some output) = Return r /\
    (Output.finalCredits r === breakdownSum (Output.creditBreakdown r)) = true.
Proof.
  destruct (rejected output) eqn:R; eexists.
  - split; [apply flow_rejected; exact R |]. reflexivity.
  - split; [apply flow_scored; exact R |].
    exact (engineTable_sound _ breakdown_sum_table (assessmentOf output)
             (Input.bookTitle input) (Input.bookAuthor input) (flagsOf input)).
Qed.

Lemma final_credits_monotone_table :
  forallb (fun c1 => forallb (fun c2 => forallb (fun d => forallb (fun b =>
    implb (c1 <=? c2)
          (Final.finalCredits (calculateFinalCredits c1 d #0 b)
           <=? Final.finalCredits (calculateFinalCredits c2 d #0 b)))
  bonusValues) demandValues) conditionValues) conditionValues = true.
Proof. vm_compute. reflexivity. Qed.

(** X4. A better book never earns less: for the same caller input, a
    provider answer that is not rejected and whose cover, spine and pages
    scores are each the same or higher, with annotations no heavier, gets final
    credits that are not lower. *)
Theorem flow_credits_monotone
    (Number_toString : number -> string) (input : Input.t) (output1 output2 : Output.t) :
  rejected output1 = false ->
  rejected output2 = false ->
  no_worse (Output.coverCondition output1) (Output.coverCondition output2) ->
  no_worse (Output.spineCondition output1) (Output.spineCondition output2) ->
  no_worse (Output.pagesCondition output1) (Output.pagesCondition output2) ->
  (severityRank (Output.annotationSeverity output2)
   <= severityRank (Output.annotationSeverity output1))%nat ->
  exists r1 r2 : Output.t,
    assessBookConditionFlow Number_toString input (Some output1) = Return r1 /\
    assessBookConditionFlow Number_toString input (Some output2) = Return r2 /\
    (Output.finalCredits r1 <=? Output.finalCredits r2) = true.
Proof.
  intros R1 R2 Hc Hs Hp Hn.
  do 2 eexists.
  split; [apply flow_scored; exact R1 |].
  split; [apply flow_scored; exact R2 |].
  cbv beta iota zeta delta [Output.finalCredits].
  assert (M : (calculateConditionScore (assessmentOf output1)
               <=? calculateConditionScore (assessmentOf output2)) = true).
  { apply scoreFrom_no_worse.
    - apply coverScore_no_worse. exact Hc.
    - apply spineScore_no_worse. exact Hs.
    - apply pageScore_no_worse. exact Hp.
    - apply annotationScore_no_worse. exact Hn. }
  pose proof final_credits_monotone_table as T.
  pick T (calculateConditionScore_values (assessmentOf output1)).
  pick T (calculateConditionScore_values (assessmentOf output2)).
  pick T (calculateDemandScore_values (Input.bookTitle input) (Input.bookAuthor input)).
  pick T (calculateBonusFactors_values (flagsOf input)).
  eapply implb_elim; [exact T | exact M].
Qed.

Lemma flow_credits_monotone_witness :
  exists r1 r2 : Output.t,
    assessBookConditionFlow samplePrinter sampleInput (Some sampleOutput) = Return r1 /\
    assessBookConditionFlow samplePrinter sampleInput
      (Some (Output.mk #10 #9 #8 #7 #8 true minor true false #0 #0 #0 #0 #0
               (mkBreakdown #0 #0 #0 #0) "Near fine.")) = Return r2 /\
    (Output.finalCredits r1 <=? Output.finalCredits r2) = true.
Proof.
  apply (flow_credits_monotone samplePrinter sampleInput sampleOutput
           (Output.mk #10 #9 #8 #7 #8 true minor true false #0 #0 #0 #0 #0
              (mkBreakdown #0 #0 #0 #0) "Near fine.")).
  - reflexivity.
  - reflexivity.
  - right. vm_compute. reflexivity.
  - left. reflexivity.
  - right. vm_compute. reflexivity.
  - simpl. lia.
Defined.

(** X5. The bonus cap never engages: for every combination of flags the bonus
    is the plain sum of the contributions and at most 4.5, and setting a
    further flag never lowers it. *)
Theorem bonus_cap_never_engages :
  (forall input : Flags.t,
     calculateBonusFactors input = bonusSum input /\
     (calculateBonusFactors input <=? dec 45 1) = true) /\
  (forall input1 input2 : Flags.t,
     flagsUpTo input1 input2 = true ->
     (calculateBonusFactors input1 <=? calculateBonusFactors input2) = true).
Proof.
  split.
  - intros [[] [] [] []]; split; vm_compute; reflexivity.
  - intros [[] [] [] []] [[] [] [] []] H; vm_compute in H; try discriminate H;
      vm_compute; reflexivity.
Qed.

Lemma bonus_cap_never_engages_witness :
  (calculateBonusFactors (Flags.mk true false false false)
   <=? calculateBonusFactors (Flags.mk true false true false)) = true.
Proof.
  apply (proj2 bonus_cap_never_engages). reflexivity.
Defined.

(** X6. The provider cannot set its own credits: two provider answers that
    agree on the nine visual fields and on the justification get the same
    output from the flow, whatever scores, credits and breakdown they carry
    themselves. *)
Theorem provider_scores_are_overwritten
    (Number_toString : number -> string) (input : Input.t) (output1 output2 : Output.t) :
  Output.coverCondition output1 = Output.coverCondition output2 ->
  Output.spineCondition output1 = Output.spineCondition output2 ->
  Output.pagesCondition output1 = Output.pagesCondition output2 ->
  Output.bindingIntegrity output1 = Output.bindingIntegrity output2 ->
  Output.cleanliness output1 = Output.cleanliness output2 ->
  Output.hasAnnotations output1 = Output.hasAnnotations output2 ->
  Output.annotationSeverity output1 = Output.annotationSeverity output2 ->
  Output.isComplete output1 = Output.isComplete output2 ->
  Output.shouldReject output1 = Output.shouldReject output2 ->
  Output.justification output1 = Output.justification output2 ->
  assessBookConditionFlow Number_toString input (Some output1) =
  assessBookConditionFlow Number_toString input (Some output2).
Proof.
  destruct output1, output2.
  cbv beta iota delta [Output.coverCondition Output.spineCondition
    Output.pagesCondition Output.bindingIntegrity Output.cleanliness
    Output.hasAnnotations Output.annotationSeverity Output.isComplete
    Output.shouldReject Output.justification].
  intros; subst. reflexivity.
Qed.

Lemma provider_scores_are_overwritten_witness :
  assessBookConditionFlow samplePrinter sampleInput (Some sampleOutput) =
  assessBookConditionFlow samplePrinter sampleInput
    (Some (Output.mk #8 #9 #6 #7 #8 true minor true false #5 #3 #1 #5 (dec 999 0)
             (mkBreakdown #100 #100 #100 #100)
             "Light shelf wear; a few pencil notes.")).
Proof.
  apply provider_scores_are_overwritten; reflexivity.
Defined.

(* ================================================================== *)
(** ** Further properties of the demand score *)
(* ================================================================== *)

Lemma toLowerCase_app (s t : string) :
  toLowerCase (s ++ t) = toLowerCase s ++ toLowerCase t.
Proof. induction s as [| c s IH]; simpl; [reflexivity | now rewrite IH]. Qed.

Lemma toLowerCase_empty (s : string) : toLowerCase s = "" <-> s = "".
Proof. destruct s; simpl; split; intros H; try reflexivity; discriminate H. Qed.

Lemma falsy_Some (s : string) : falsy (Some s) = true <-> s = "".
Proof. destruct s; simpl; split; intros H; try reflexivity; discriminate H. Qed.

(** What occurs in a string occurs in every string around it. *)
Lemma Substring_extend (sub s pre post : string) :
  Substring sub s -> Substring sub (pre ++ s ++ post).
Proof.
  intros [p [q ->]]. exists (pre ++ p), (q ++ post).
  now rewrite !append_assoc.
Qed.

Lemma some_includes_extend (entries : list string) (s pre post : string) :
  some entries (fun entry => includes s entry) = true ->
  some entries (fun entry => includes (pre ++ s ++ post) entry) = true.
Proof.
  rewrite !some_includes. intros [entry [HIn H]].
  exists entry. split; [exact HIn | now apply Substring_extend].
Qed.

(** X7. The demand score ignores the case of the letters A-Z and the
    author: two titles with the same lower-case form get the same score,
    whatever the authors are. *)
Theorem demand_score_case_insensitive (title1 title2 : string)
    (author1 author2 : option string) :
  toLowerCase title1 = toLowerCase title2 ->
  calculateDemandScore (Some title1) author1 =
  calculateDemandScore (Some title2) author2.
Proof.
  intros H. unfold calculateDemandScore.
  assert (F : falsy (Some title1) = falsy (Some title2)).
  { destruct title1, title2; try reflexivity; discriminate H. }
  rewrite F. cbv zeta.
  change (string_of (Some title1)) with title1.
  change (string_of (Some title2)) with title2.
  rewrite H. reflexivity.
Qed.

Lemma demand_score_case_insensitive_witness :
  calculateDemandScore (Some "PRIDE and Prejudice") (Some "Jane Austen") =
  calculateDemandScore (Some "pride and prejudice") None.
Proof.
  apply demand_score_case_insensitive. reflexivity.
Defined.

(** X8. Text around a title never lowers its demand score: a non-empty
    title scores no more than any title that contains it. *)
Theorem demand_score_survives_padding (title pre post : string)
    (author author' : option string) :
  title <> "" ->
  (calculateDemandScore (Some title) author
   <=? calculateDemandScore (Some (pre ++ title ++ post)) author') = true.
Proof.
  intros Ht.
  assert (F : falsy (Some title) = false).
  { destruct title; [contradiction | reflexivity]. }
  assert (F' : falsy (Some (pre ++ title ++ post)) = false).
  { destruct (falsy (Some (pre ++ title ++ post))) eqn:E; [| reflexivity].
    apply falsy_Some in E. destruct pre; [| discriminate E].
    destruct title; [contradiction | discriminate E]. }
  unfold calculateDemandScore. rewrite F, F'. cbv zeta.
  change (string_of (Some title)) with title.
  change (string_of (Some (pre ++ title ++ post))) with (pre ++ title ++ post).
  rewrite !toLowerCase_app.
  pose proof (@some_includes_extend popularBooks (toLowerCase title)
                (toLowerCase pre) (toLowerCase post)) as EP.
  pose proof (@some_includes_extend trendingGenres (toLowerCase title)
                (toLowerCase pre) (toLowerCase post)) as EG.
  set (padded := toLowerCase pre ++ toLowerCase title ++ toLowerCase post) in *.
  destruct (some popularBooks (fun book => includes (toLowerCase title) book)).
  - rewrite (EP eq_refl). reflexivity.
  - destruct (some trendingGenres (fun genre => includes (toLowerCase title) genre)).
    + rewrite (EG eq_refl).
      destruct (some popularBooks (fun book => includes padded book)); reflexivity.
    + destruct (some popularBooks (fun book => includes padded book)); [reflexivity |].
      destruct (some trendingGenres (fun genre => includes padded genre)); reflexivity.
Qed.

Lemma demand_score_survives_padding_witness :
  (calculateDemandScore (Some "Romance") None
   <=? calculateDemandScore (Some "The Harry Potter Romance Companion") None) = true.
Proof.
  apply (@demand_score_survives_padding "Romance" "The Harry Potter "
           " Companion" None None).
  discriminate.
Defined.

(* ================================================================== *)
(** ** Retrying with backoff *)
(* ================================================================== *)

Section RetryFacts.

Variable T : Type.
Variable fn : nat -> settled T.
Variable random : nat -> number.
Variable maxRetries : Z.
Variable baseDelay : number.

(** The fuel [retryWithBackoff] gives the loop is enough: once the fuel
    covers the iterations that remain, more fuel changes nothing, so running
    out of fuel is leaving the loop. *)
Lemma retryLoop_enough_fuel (fuel i : nat) (waited : list number) :
  (maxRetries <= Z.of_nat i + Z.of_nat fuel)%Z ->
  retryLoop fn random maxRetries baseDelay (S fuel) i waited =
  retryLoop fn random maxRetries baseDelay fuel i waited.
Proof.
  revert i waited. induction fuel as [| fuel IH]; intros i waited H.
  - cbn [retryLoop].
    destruct (Z.ltb_spec (Z.of_nat i) maxRetries) as [Hlt | _]; [lia | reflexivity].
  - change (retryLoop fn random maxRetries baseDelay (S (S fuel)) i waited)
      with (if (Z.of_nat i <? maxRetries)%Z then
              match fn i with
              | Resolved value => mkRun (Resolved value) (S i) waited
              | Rejected error =>
                  if (Z.of_nat i =? maxRetries - 1)%Z
                  then mkRun (Rejected error) (S i) waited
                  else if overloaded error then
                    retryLoop fn random maxRetries baseDelay (S fuel) (S i)
                      (waited ++ [baseDelay * #(2 ^ Z.of_nat i) + random i * #1000])
                  else mkRun (Rejected error) (S i) waited
              end
            else mkRun (Rejected (Error "Max retries exceeded")) i waited).
    rewrite IH by lia. reflexivity.
Qed.

(** The loop settles at the first iteration [k] that is the last one or is
    not waited on, exactly as the call of [fn] in that iteration did. *)
Lemma retryLoop_decides (fuel i : nat) (waited : list number) (k : nat) :
  (Z.of_nat i + Z.of_nat fuel = maxRetries)%Z ->
  (i <= k)%nat ->
  (Z.of_nat k < maxRetries)%Z ->
  (forall j, (i <= j < k)%nat -> waitedOn fn j) ->
  (Z.of_nat k = maxRetries - 1)%Z \/ ~ waitedOn fn k ->
  let run := retryLoop fn random maxRetries baseDelay fuel i waited in
  outcome run = fn k /\ calls run = S k /\
  List.length (delays run) = (List.length waited + (k - i))%nat.
Proof.
  revert i waited. induction fuel as [| fuel IH]; intros i waited Hfuel Hik Hk Hbefore Hat.
  - lia.
  - cbn [retryLoop].
    destruct (Z.ltb_spec (Z.of_nat i) maxRetries) as [_ | Hge]; [| lia].
    destruct (Nat.eq_dec i k) as [-> | Hne].
    + destruct (fn k) as [value | error] eqn:E.
      * cbn. repeat split. lia.
      * destruct (Z.eqb_spec (Z.of_nat k) (maxRetries - 1)) as [_ | Hnl].
        -- cbn. repeat split. lia.
        -- destruct Hat as [Hl | Hnw]; [contradiction |].
           destruct (overloaded error) eqn:O.
           ++ exfalso. apply Hnw. exists error. split; [exact E | exact O].
           ++ cbn. repeat split. lia.
    + destruct (Hbefore i ltac:(lia)) as [error [E O]].
      rewrite E, O.
      destruct (Z.eqb_spec (Z.of_nat i) (maxRetries - 1)) as [Hl | _]; [lia |].
      cbv zeta.
      specialize (IH (S i) (waited ++ [baseDelay * #(2 ^ Z.of_nat i) + random i * #1000])%list).
      destruct IH as (Ho & Hc & Hd); try lia.
      * intros j Hj. apply Hbefore. lia.
      * exact Hat.
      * repeat split; try assumption.
        rewrite Hd, length_app. cbn [List.length]. lia.
Qed.

(** With enough fuel for every remaining iteration, the loop settles as
    some call of [fn] did. *)
Lemma retryLoop_settles (fuel i : nat) (waited : list number) :
  (Z.of_nat i + Z.of_nat fuel = maxRetries)%Z ->
  (0 < fuel)%nat ->
  let run := retryLoop fn random maxRetries baseDelay fuel i waited in
  exists k, (i <= k)%nat /\ (Z.of_nat k < maxRetries)%Z /\
            outcome run = fn k /\ calls run = S k.
Proof.
  revert i waited. induction fuel as [| fuel IH]; intros i waited Hfuel Hpos; [lia |].
  cbn [retryLoop].
  destruct (Z.ltb_spec (Z.of_nat i) maxRetries) as [Hlt | Hge]; [| lia].
  destruct (fn i) as [value | error] eqn:E.
  - exists i. cbn. rewrite E. repeat split; lia.
  - destruct (Z.eqb_spec (Z.of_nat i) (maxRetries - 1)) as [Hl | Hnl].
    + exists i. cbn. rewrite E. repeat split; lia.
    + destruct (overloaded error).
      * cbv zeta.
        destruct (IH (S i) (waited ++ [baseDelay * #(2 ^ Z.of_nat i) + random i * #1000])%list)
          as [k (Hk & Hm & Ho & Hc)]; try lia.
        exists k. repeat split; try assumption; lia.
      * exists i. cbn. rewrite E. repeat split; lia.
Qed.

(** The calls and the waits of the loop, counted: the loop is left
    without a call only when no iteration remains, and otherwise one wait
    fewer than calls has been made. *)
Lemma retryLoop_counts (fuel i : nat) (waited : list number) :
  List.length waited = i ->
  (Z.of_nat i + Z.of_nat fuel = Z.max (Z.of_nat i) maxRetries)%Z ->
  let run := retryLoop fn random maxRetries baseDelay fuel i waited in
  (calls run <= i + fuel)%nat /\
  ((fuel = 0%nat /\ calls run = i /\ delays run = waited) \/
   S (List.length (delays run)) = calls run).
Proof.
  revert i waited. induction fuel as [| fuel IH]; intros i waited Hlen Hfuel.
  - cbn. split; [lia | left; repeat split].
  - cbn [retryLoop].
    destruct (Z.ltb_spec (Z.of_nat i) maxRetries) as [Hlt | Hge]; [| lia].
    destruct (fn i) as [value | error]; [cbn; split; [lia | right; lia] |].
    destruct (Z.eqb_spec (Z.of_nat i) (maxRetries - 1)) as [Hl | Hnl];
      [cbn; split; [lia | right; lia] |].
    destruct (overloaded error); [| cbn; split; [lia | right; lia]].
    cbv zeta.
    destruct (IH (S i) (waited ++ [baseDelay * #(2 ^ Z.of_nat i) + random i * #1000])%list)
      as [Hc Hd].
    { rewrite length_app. cbn [List.length]. lia. }
    { lia. }
    split; [lia |].
    destruct Hd as [[Hf _] | Hd]; [lia | right; exact Hd].
Qed.

End RetryFacts.

(** [retryWithBackoff] settles at the first call that is the last allowed
    one or is not waited on. *)
Lemma retry_decides (T : Type) (fn : nat -> settled T) (random : nat -> number)
    (maxRetries : Z) (baseDelay : number) (k : nat) :
  (Z.of_nat k < maxRetries)%Z ->
  (forall j, (j < k)%nat -> waitedOn fn j) ->
  (Z.of_nat k = maxRetries - 1)%Z \/ ~ waitedOn fn k ->
  outcome (retryWithBackoff fn random maxRetries baseDelay) = fn k /\
  calls (retryWithBackoff fn random maxRetries baseDelay) = S k.
Proof.
  intros Hk Hbefore Hat. unfold retryWithBackoff.
  destruct (@retryLoop_decides T fn random maxRetries baseDelay
              (Z.to_nat maxRetries) 0 [] k) as (Ho & Hc & _); try lia.
  - intros j Hj. apply Hbefore. lia.
  - exact Hat.
  - split; assumption.
Qed.

(** With at least one attempt allowed, [retryWithBackoff] settles as one of
    the calls of [fn] did. *)
Lemma retry_settles (T : Type) (fn : nat -> settled T) (random : nat -> number)
    (maxRetries : Z) (baseDelay : number) :
  (0 < maxRetries)%Z ->
  exists k, (Z.of_nat k < maxRetries)%Z /\
    outcome (retryWithBackoff fn random maxRetries baseDelay) = fn k /\
    calls (retryWithBackoff fn random maxRetries baseDelay) = S k.
Proof.
  intros H. unfold retryWithBackoff.
  destruct (@retryLoop_settles T fn random maxRetries baseDelay
              (Z.to_nat maxRetries) 0 []) as [k (_ & Hk & Ho & Hc)]; try lia.
  exists k. repeat split; assumption.
Qed.

(** X9. For an integer [maxRetries], [retryWithBackoff] never calls [fn]
    more than [maxRetries] times, whatever [fn] does, and it waits exactly
    once between two consecutive calls: never before the first call and never
    after the last. *)
Theorem retry_calls_and_waits_bounded (T : Type) (fn : nat -> settled T)
    (random : nat -> number) (maxRetries : Z) (baseDelay : number) :
  let run := retryWithBackoff fn random maxRetries baseDelay in
  (Z.of_nat (calls run) <= Z.max 0 maxRetries)%Z /\
  List.length (delays run) = Nat.pred (calls run).
Proof.
  cbv zeta. unfold retryWithBackoff.
  destruct (@retryLoop_counts T fn random maxRetries baseDelay (Z.to_nat maxRetries)
              0 [] eq_refl) as [Hc Hd]; [lia |].
  split; [lia |].
  destruct Hd as [(_ & Hd1 & Hd2) | Hd].
  - rewrite Hd1, Hd2. reflexivity.
  - rewrite <- Hd. reflexivity.
Qed.

(** X10. The first success wins: when call [k], within the allowed number,
    resolves and every earlier call failed with an overload error (status 503,
    status text "Service Unavailable" or a message containing "overloaded"),
    [retryWithBackoff] resolves with that value after exactly [k + 1] calls
    and [k] waits. *)
Theorem retry_first_success (T : Type) (fn : nat -> settled T)
    (random : nat -> number) (maxRetries : Z) (baseDelay : number)
    (k : nat) (value : T) :
  (Z.of_nat k < maxRetries)%Z ->
  (forall j, (j < k)%nat -> waitedOn fn j) ->
  fn k = Resolved value ->
  let run := retryWithBackoff fn random maxRetries baseDelay in
  outcome run = Resolved value /\ calls run = S k /\ List.length (delays run) = k.
Proof.
  intros Hk Hbefore Hres. cbv zeta. unfold retryWithBackoff.
  destruct (@retryLoop_decides T fn random maxRetries baseDelay
              (Z.to_nat maxRetries) 0 [] k) as (Ho & Hc & Hd); try lia.
  - intros j Hj. apply Hbefore. lia.
  - right. intros [error [E _]]. congruence.
  - rewrite Ho, Hres, Hc, Hd. cbn. repeat split. lia.
Qed.

Lemma retry_first_success_witness :
  outcome (retryWithBackoff
             (fun i => match i with
                       | O => Rejected (Err.mk (Some #503) None None)
                       | _ => Resolved 7%nat
                       end)
             (fun _ => dec 5 1) 3 #1000) = Resolved 7%nat.
Proof.
  refine (proj1 (@retry_first_success nat _ (fun _ => dec 5 1) 3 #1000 1 7%nat _ _ _)).
  - lia.
  - intros j Hj. assert (j = 0)%nat as -> by lia.
    exists (Err.mk (Some #503) None None). split; reflexivity.
  - reflexivity.
Defined.



(** X12. Giving up: for an integer [maxRetries] of at least 1, when every
    allowed call fails with an overload error, [retryWithBackoff] rejects with
    the error of the last call, after exactly [maxRetries] calls and
    [maxRetries - 1] waits; the last failure is not waited on. *)
Theorem retry_gives_up_with_last_error (T : Type) (fn : nat -> settled T)
    (random : nat -> number) (maxRetries : Z) (baseDelay : number) :
  (0 < maxRetries)%Z ->
  (forall j, (Z.of_nat j < maxRetries)%Z -> waitedOn fn j) ->
  let run := retryWithBackoff fn random maxRetries baseDelay in
  outcome run = fn (Z.to_nat (maxRetries - 1)) /\
  Z.of_nat (calls run) = maxRetries /\
  Z.of_nat (List.length (delays run)) = (maxRetries - 1)%Z.
Proof.
  intros Hpos Hall. cbv zeta. unfold retryWithBackoff.
  destruct (@retryLoop_decides T fn random maxRetries baseDelay
              (Z.to_nat maxRetries) 0 [] (Z.to_nat (maxRetries - 1)))
    as (Ho & Hc & Hd); try lia.
  - intros j Hj. apply Hall. lia.
  - rewrite Ho, Hc, Hd. cbn. repeat split; lia.
Qed.

Lemma retry_gives_up_with_last_error_witness :
  calls (retryWithBackoff
           (fun _ => @Rejected nat (Error "The model is overloaded."))
           (fun _ => dec 5 1) 3 #1000) = 3%nat.
Proof.
  pose proof (@retry_gives_up_with_last_error nat
                (fun _ => @Rejected nat (Error "The model is overloaded."))
                (fun _ => dec 5 1) 3 #1000) as H.
  destruct H as (_ & Hc & _).
  - lia.
  - intros j _. exists (Error "The model is overloaded."). split; reflexivity.
  - apply Nat2Z.inj. exact Hc.
Defined.



(** X14. [isRetryableError] and the retry loop disagree: every error the
    loop waits on is retryable according to [isRetryableError], but an error
    whose message mentions a quota or a rate limit, and that is not an overload
    error, is retryable according to [isRetryableError] and yet rethrown by
    [retryWithBackoff] after a single call. *)
Theorem retryable_errors_not_all_retried :
  (forall error : Err.t, overloaded error = true -> isRetryableError error = true) /\
  (forall (T : Type) (fn : nat -> settled T) (random : nat -> number)
          (maxRetries : Z) (baseDelay : number) (error : Err.t),
     (0 < maxRetries)%Z ->
     fn 0%nat = Rejected error ->
     overloaded error = false ->
     message_includes error "quota" = true \/
     message_includes error "rate limit" = true ->
     isRetryableError error = true /\
     outcome (retryWithBackoff fn random maxRetries baseDelay) = Rejected error /\
     calls (retryWithBackoff fn random maxRetries baseDelay) = 1%nat).
Proof.
  split.
  - intros error. unfold overloaded, isRetryableError. intros ->. reflexivity.
  - intros T fn random maxRetries baseDelay error Hpos Hfn Hno Hmsg.
    split.
    + unfold isRetryableError.
      destruct Hmsg as [-> | ->]; rewrite ?orb_true_r; reflexivity.
    + destruct (@retry_decides T fn random maxRetries baseDelay 0) as [Ho Hc].
      * lia.
      * intros j Hj. lia.
      * right. intros [error' [E O]]. congruence.
      * rewrite Ho, Hc. split; [exact Hfn | reflexivity].
Qed.

Lemma retryable_errors_not_all_retried_witness :
  isRetryableError (Error "429: rate limit reached") = true /\
  calls (retryWithBackoff
           (fun _ => @Rejected nat (Error "429: rate limit reached"))
           (fun _ => dec 5 1) 3 #1000) = 1%nat.
Proof.
  destruct (proj2 retryable_errors_not_all_retried nat
              (fun _ => @Rejected nat (Error "429: rate limit reached"))
              (fun _ => dec 5 1) 3%Z #1000 (Error "429: rate limit reached"))
    as (Hr & _ & Hc).
  - lia.
  - reflexivity.
  - reflexivity.
  - right. reflexivity.
  - split; assumption.
Defined.

(* ================================================================== *)
(** ** The exported wrapper [assessBookCondition] *)
(* ================================================================== *)

Lemma flowAttempt_resolved (Number_toString : number -> string) (input : Input.t)
    (p : promptOutcome) (r : Output.t) :
  flowAttempt Number_toString input p = Resolved r ->
  exists output, p = PromptResolves (Some output) /\
    assessBookConditionFlow Number_toString input (Some output) = Return r.
Proof.
  destruct p as [error | [output |]]; cbn [flowAttempt]; try discriminate.
  destruct (assessBookConditionFlow Number_toString input (Some output)) as [out | m] eqn:E;
    [| discriminate].
  intros H. injection H as <-. exists output. split; [reflexivity | exact E].
Qed.

(** The demand credits of a scored book are never zero. *)
Lemma demand_credits_nonzero (t u : option string) (c r b : number) :
  demandCredits (Final.breakdown (calculateFinalCredits c (calculateDemandScore t u) r b))
  <> #0.
Proof.
  pose proof (calculateDemandScore_values t u) as D.
  destruct D as [<- | [<- | [<- | []]]]; vm_compute; discriminate.
Qed.

Lemma Return_inj (a b : Output.t) : Return a = Return b -> a = b.
Proof.
  intros H.
  exact (f_equal (fun c => match c with Return out => out | Throw _ => a end) H).
Qed.

(** The flow never returns the fallback record. *)
Lemma flow_never_fallback (Number_toString : number -> string) (input : Input.t)
    (output r : Output.t) :
  assessBookConditionFlow Number_toString input (Some output) = Return r ->
  r <> fallbackResponse.
Proof.
  intros F E.
  destruct (rejected output) eqn:R.
  - rewrite (flow_rejected Number_toString input output R) in F.
    apply Return_inj in F.
    assert (Hs : Output.shouldReject r = Output.shouldReject output)
      by (rewrite <- F; reflexivity).
    assert (Hc : Output.isComplete r = Output.isComplete output)
      by (rewrite <- F; reflexivity).
    rewrite E in Hs, Hc.
    change (Output.shouldReject fallbackResponse) with false in Hs.
    change (Output.isComplete fallbackResponse) with true in Hc.
    apply rejected_iff in R. destruct R as [R | R]; congruence.
  - rewrite (flow_scored Number_toString input output R) in F.
    cbv zeta in F. apply Return_inj in F.
    assert (Hb : demandCredits (Output.creditBreakdown r) =
                 demandCredits
                   (Final.breakdown
                      (calculateFinalCredits
                         (calculateConditionScore (assessmentOf output))
                         (calculateDemandScore (Input.bookTitle input)
                            (Input.bookAuthor input))
                         (calculateRarityScore (Input.bookTitle input)
                            (Input.bookAuthor input))
                         (calculateBonusFactors (flagsOf input)))))
      by (rewrite <- F; reflexivity).
    rewrite E in Hb.
    change (demandCredits (Output.creditBreakdown fallbackResponse)) with #0 in Hb.
    symmetry in Hb.
    exact (demand_credits_nonzero _ _ _ _ _ Hb).
Qed.

(** X15. The result of [assessBookCondition] is the fallback record
    exactly when the retries ended in an error: the flow itself never
    produces that record, so a caller can tell a failed assessment from a real
    one. *)
Theorem fallback_iff_retries_failed (Number_toString : number -> string)
    (input : Input.t) (prompts : nat -> promptOutcome) (random : nat -> number) :
  assessBookCondition Number_toString input prompts random = fallbackResponse <->
  exists error,
    outcome (assessBookConditionRun Number_toString input prompts random)
    = Rejected error.
Proof.
  unfold assessBookCondition.
  destruct (outcome (assessBookConditionRun Number_toString input prompts random))
    as [out | error] eqn:O.
  - split; [| intros [error H]; discriminate H].
    intros E. exfalso.
    destruct (@retry_settles Output.t
                (fun i => flowAttempt Number_toString input (prompts i))
                random 3 #1000) as [k (_ & Hk & _)]; [lia |].
    unfold assessBookConditionRun in O. rewrite O in Hk.
    symmetry in Hk. apply flowAttempt_resolved in Hk.
    destruct Hk as [output [_ F]].
    exact (flow_never_fallback _ _ _ F E).
  - split; [intros _; exists error; reflexivity | reflexivity].
Qed.

Lemma fallback_iff_retries_failed_witness :
  assessBookCondition samplePrinter sampleInput
    (fun _ => PromptThrows (Error "fetch failed")) (fun _ => dec 5 1)
  = fallbackResponse.
Proof.
  apply (proj2 (fallback_iff_retries_failed samplePrinter sampleInput
                  (fun _ => PromptThrows (Error "fetch failed")) (fun _ => dec 5 1))).
  exists (Error "fetch failed"). reflexivity.
Defined.

(** X16. A missing prompt output is not retried: when a prompt call, one of
    the three allowed, resolves without an output and every earlier call threw
    an overload error, [assessBookCondition] returns the fallback record and
    the prompt is not called again. *)
Theorem missing_output_gives_fallback (Number_toString : number -> string)
    (input : Input.t) (prompts : nat -> promptOutcome) (random : nat -> number)
    (k : nat) :
  (k < 3)%nat ->
  (forall j, (j < k)%nat ->
     exists error, prompts j = PromptThrows error /\ overloaded error = true) ->
  prompts k = PromptResolves None ->
  assessBookCondition Number_toString input prompts random = fallbackResponse /\
  calls (assessBookConditionRun Number_toString input prompts random) = S k.
Proof.
  intros Hk Hbefore Hnone.
  assert (Hfn : flowAttempt Number_toString input (prompts k)
                = Rejected (Error "No output from assessment prompt"))
    by (rewrite Hnone; reflexivity).
  destruct (@retry_decides Output.t
              (fun i => flowAttempt Number_toString input (prompts i))
              random 3 #1000 k) as [Ho Hc].
  - lia.
  - intros j Hj. destruct (Hbefore j Hj) as [error [E O]].
    exists error. rewrite E. split; [reflexivity | exact O].
  - right. intros [error [E O]]. rewrite Hfn in E.
    assert (error = Error "No output from assessment prompt") as -> by congruence.
    discriminate O.
  - unfold assessBookCondition, assessBookConditionRun.
    rewrite Ho, Hfn. split; [reflexivity | exact Hc].
Qed.

Lemma missing_output_gives_fallback_witness :
  assessBookCondition samplePrinter sampleInput
    (fun i => match i with
              | O => PromptThrows (Err.mk (Some #503) None None)
              | _ => PromptResolves None
              end)
    (fun _ => dec 5 1) = fallbackResponse.
Proof.
  refine (proj1 (@missing_output_gives_fallback samplePrinter sampleInput _
                   (fun _ => dec 5 1) 1 _ _ _)).
  - lia.
  - intros j Hj. assert (j = 0)%nat as -> by lia.
    exists (Err.mk (Some #503) None None). split; reflexivity.
  - reflexivity.
Defined.

(** The wrapper calls the prompt at most three times. *)
Lemma retry_calls_at_most_three (Number_toString : number -> string)
    (input : Input.t) (prompts : nat -> promptOutcome) (random : nat -> number) :
  (calls (assessBookConditionRun Number_toString input prompts random) <= 3)%nat.
Proof.
  destruct (@retryLoop_counts Output.t
              (fun i => flowAttempt Number_toString input (prompts i))
              random 3 #1000 3 0 [] eq_refl) as [Hc _]; [reflexivity |].
  exact Hc.
Qed.

(** The result of [assessBookCondition] is the fallback record or the
    flow's output for the answer of one of the prompt calls made. *)
Lemma assessBookCondition_cases (Number_toString : number -> string)
    (input : Input.t) (prompts : nat -> promptOutcome) (random : nat -> number) :
  assessBookCondition Number_toString input prompts random = fallbackResponse \/
  exists k output,
    (k < calls (assessBookConditionRun Number_toString input prompts random))%nat /\
    prompts k = PromptResolves (Some output) /\
    assessBookConditionFlow Number_toString input (Some output) =
    Return (assessBookCondition Number_toString input prompts random).
Proof.
  unfold assessBookCondition.
  destruct (outcome (assessBookConditionRun Number_toString input prompts random))
    as [out | error] eqn:O; [| left; reflexivity].
  right.
  destruct (@retry_settles Output.t
              (fun i => flowAttempt Number_toString input (prompts i))
              random 3 #1000) as [k (_ & Hk & Hn)]; [lia |].
  fold (assessBookConditionRun Number_toString input prompts random) in Hk, Hn.
  rewrite O in Hk. symmetry in Hk. apply flowAttempt_resolved in Hk.
  destruct Hk as [output [Hp F]].
  exists k, output. repeat split; try assumption. lia.
Qed.

(** X17. Where the result comes from: [assessBookCondition] calls the
    prompt at most three times and waits at most twice, and its result is
    either the fallback record or the flow's output for the answer of one of
    those calls. *)
Theorem assessBookCondition_provenance (Number_toString : number -> string)
    (input : Input.t) (prompts : nat -> promptOutcome) (random : nat -> number) :
  let run := assessBookConditionRun Number_toString input prompts random in
  let result := assessBookCondition Number_toString input prompts random in
  (calls run <= 3)%nat /\
  (List.length (delays run) <= 2)%nat /\
  (result = fallbackResponse \/
   exists k output,
     (k < calls run)%nat /\
     prompts k = PromptResolves (Some output) /\
     assessBookConditionFlow Number_toString input (Some output) = Return result).
Proof.
  cbv zeta.
  destruct (@retryLoop_counts Output.t
              (fun i => flowAttempt Number_toString input (prompts i))
              random 3 #1000 3 0 [] eq_refl) as [Hc Hd]; [reflexivity |].
  change (retryLoop (fun i => flowAttempt Number_toString input (prompts i))
            random 3 #1000 3 0 [])
    with (assessBookConditionRun Number_toString input prompts random) in Hc, Hd.
  split; [lia |]. split.
  - destruct Hd as [(Hf & _) | Hd]; [discriminate Hf | lia].
  - apply assessBookCondition_cases.
Qed.

(** A book that is not rejected gets final credits other than 0. *)
Lemma scored_credits_nonzero (Number_toString : number -> string) (input : Input.t)
    (output r : Output.t) :
  rejected output = false ->
  assessBookConditionFlow Number_toString input (Some output) = Return r ->
  (Output.finalCredits r === #0) = false.
Proof.
  intros R F.
  rewrite (flow_scored Number_toString input output R) in F.
  cbv zeta in F. apply Return_inj in F. rewrite <- F.
  cbv beta iota delta [Output.finalCredits].
  apply at_least_0_3_nonzero. apply final_credits_floor.
Qed.

(** X18. Zero credits mean a rejected book: when the final credits in the
    result of [assessBookCondition] are equal to 0, one of the prompt calls
    answered with a book that is flagged for rejection or incomplete; a failed
    service never yields zero credits. *)
Theorem zero_credits_only_for_rejected_books (Number_toString : number -> string)
    (input : Input.t) (prompts : nat -> promptOutcome) (random : nat -> number) :
  (Output.finalCredits (assessBookCondition Number_toString input prompts random)
   === #0) = true ->
  exists k output,
    (k < 3)%nat /\
    prompts k = PromptResolves (Some output) /\
    (Output.shouldReject output = true \/ Output.isComplete output = false).
Proof.
  intros Z.
  pose proof (retry_calls_at_most_three Number_toString input prompts random) as Hc.
  destruct (assessBookCondition_cases Number_toString input prompts random)
    as [E | [k [output (Hk & Hp & F)]]].
  - rewrite E in Z.
    assert (N : (Output.finalCredits fallbackResponse === #0) = false)
      by (vm_compute; reflexivity).
    rewrite N in Z. discriminate Z.
  - exists k, output. split; [lia |]. split; [exact Hp |].
    apply rejected_iff.
    destruct (rejected output) eqn:R; [reflexivity |].
    rewrite (scored_credits_nonzero _ _ _ R F) in Z. discriminate Z.
Qed.

Lemma zero_credits_only_for_rejected_books_witness :
  exists k output,
    (k < 3)%nat /\
    (fun _ : nat => PromptResolves (Some sampleRejected)) k
    = PromptResolves (Some output) /\
    (Output.shouldReject output = true \/ Output.isComplete output = false).
Proof.
  apply (@zero_credits_only_for_rejected_books samplePrinter sampleInput
           (fun _ => PromptResolves (Some sampleRejected)) (fun _ => dec 5 1)).
  reflexivity.
Defined.

(* ================================================================== *)
(** ** The caller [handleAssessCondition] *)
(* ================================================================== *)

Lemma filter_keeps_all (A : Type) (f : A -> bool) (l : list A) :
  (forall x, In x l -> f x = true) -> filter f l = l.
Proof.
  induction l as [| a l IH]; intros H; [reflexivity |].
  cbn [filter]. rewrite (H a (or_introl eq_refl)).
  rewrite IH; [reflexivity |]. intros x Hx. apply H. right. exact Hx.
Qed.

Lemma filter_drops_one (A : Type) (f : A -> bool) (l : list A) (x : A) :
  In x l -> f x = false -> (List.length (filter f l) < List.length l)%nat.
Proof.
  induction l as [| a l IH]; intros HIn Hx; [contradiction |].
  pose proof (filter_length_le f l) as Hle.
  cbn [filter List.length].
  destruct HIn as [-> | HIn].
  - rewrite Hx. lia.
  - specialize (IH HIn Hx). destruct (f a); cbn [List.length]; lia.
Qed.

Lemma truthy_false (s : string) : truthy s = false <-> s = "".
Proof. destruct s; cbn; split; intros H; try reflexivity; discriminate H. Qed.

Lemma no_flags_no_bonus :
  calculateBonusFactors (Flags.mk false false false false) = #0.
Proof. vm_compute. reflexivity. Qed.

Lemma no_bonus_credit_table :
  forallb (fun c => forallb (fun d =>
    let final := calculateFinalCredits c d #0 #0 in
    (Final.finalCredits final <=? dec 34 1)
    && (bonusCredits (Final.breakdown final) === #0))
  demandValues) conditionValues = true.
Proof. vm_compute. reflexivity. Qed.

(** X19. A photo without a label or without data stops the assessment:
    when any captured photo has an empty label or an empty data URI,
    [handleAssessCondition] does not request an assessment at all (its result
    does not depend on what the request would return); it shows the error
    toast, returns to the capture step and leaves the stored assessment
    untouched. *)
Theorem invalid_photo_aborts_assessment (metadata : option Metadata.t)
    (call : Input.t -> settled Output.t) (photos : list Photo.t) (ui : UI.t)
    (photo : Photo.t) :
  In photo photos ->
  Photo.label photo = "" \/ Photo.dataUri photo = "" ->
  handleAssessCondition metadata call photos ui =
  {| UI.step := CONDITION_CAPTURE;
     UI.assessment := UI.assessment ui;
     UI.toasts :=
       (UI.toasts ui ++
        [ {| Toast.variant := "destructive";
             Toast.title := "An Error Occurred";
             Toast.description := "Something went wrong. Please try again later." |} ])%list |}.
Proof.
  intros HIn Hbad. unfold handleAssessCondition. cbv zeta.
  set (valid := fun p : Photo.t => truthy (Photo.label p) && truthy (Photo.dataUri p)).
  assert (Hf : valid photo = false).
  { unfold valid. destruct Hbad as [-> | ->]; [reflexivity | apply andb_false_r]. }
  pose proof (filter_drops_one valid photos photo HIn Hf) as Hlt.
  destruct (Nat.eqb_spec (List.length (filter valid photos)) (List.length photos)) as [He | _];
    [lia |].
  reflexivity.
Qed.

Lemma invalid_photo_aborts_assessment_witness :
  UI.step
    (handleAssessCondition None (fun _ => Resolved sampleOutput)
       [Photo.mk "Front Cover" "data:image/png;base64,AAAA"; Photo.mk "Spine" ""]
       (UI.mk ASSESSMENT_LOADING None [])) = CONDITION_CAPTURE.
Proof.
  rewrite (@invalid_photo_aborts_assessment None (fun _ => Resolved sampleOutput)
             [Photo.mk "Front Cover" "data:image/png;base64,AAAA"; Photo.mk "Spine" ""]
             (UI.mk ASSESSMENT_LOADING None []) (Photo.mk "Spine" "")).
  - reflexivity.
  - right. left. reflexivity.
  - right. reflexivity.
Defined.

(** X20. The intake component never grants a bonus: when every photo has
    a label and data, [handleAssessCondition] ends on the confirmation step
    with an assessment whose bonus factors and bonus credits are 0 and whose
    final credits are at most 3.4, whatever the prompt answers, because it
    passes all four contextual flags as [false]. *)
Theorem intake_assessment_has_no_bonus (Number_toString : number -> string)
    (metadata : option Metadata.t) (prompts : nat -> promptOutcome)
    (random : nat -> number) (photos : list Photo.t) (ui : UI.t) :
  (forall photo, In photo photos ->
     Photo.label photo <> "" /\ Photo.dataUri photo <> "") ->
  let ui' :=
    handleAssessCondition metadata
      (fun request =>
         Resolved (assessBookCondition Number_toString request prompts random))
      photos ui in
  UI.step ui' = ASSESSMENT_CONFIRM /\
  UI.toasts ui' = UI.toasts ui /\
  exists r : Output.t,
    UI.assessment ui' = Some r /\
    Output.bonusFactors r = #0 /\
    (bonusCredits (Output.creditBreakdown r) === #0) = true /\
    (Output.finalCredits r <=? dec 34 1) = true.
Proof.
  intros Hvalid. cbv zeta. unfold handleAssessCondition. cbv zeta.
  rewrite filter_keeps_all.
  2:{ intros p Hp. destruct (Hvalid p Hp) as [Hl Hd].
      destruct (Photo.label p); [contradiction |].
      destruct (Photo.dataUri p); [contradiction | reflexivity]. }
  rewrite Nat.eqb_refl. cbn [negb UI.step UI.toasts UI.assessment].
  split; [reflexivity |]. split; [reflexivity |].
  eexists. split; [reflexivity |].
  set (request := assessmentRequest metadata photos).
  destruct (assessBookCondition_cases Number_toString request prompts random)
    as [E | [k [output (_ & _ & F)]]].
  - rewrite E. repeat split; vm_compute; reflexivity.
  - destruct (rejected output) eqn:R.
    + rewrite (flow_rejected Number_toString request output R) in F.
      apply Return_inj in F. rewrite <- F.
      repeat split; vm_compute; reflexivity.
    + rewrite (flow_scored Number_toString request output R) in F.
      cbv zeta in F. apply Return_inj in F. rewrite <- F.
      cbv beta iota delta [Output.bonusFactors Output.creditBreakdown Output.finalCredits].
      change (flagsOf request) with (Flags.mk false false false false).
      rewrite no_flags_no_bonus. unfold calculateRarityScore.
      split; [reflexivity |].
      pose proof no_bonus_credit_table as T.
      pick T (calculateConditionScore_values (assessmentOf output)).
      pick T (calculateDemandScore_values (Input.bookTitle request)
                (Input.bookAuthor request)).
      cbv zeta in T. apply andb_prop in T. destruct T as [T1 T2].
      split; assumption.
Qed.

Lemma intake_assessment_has_no_bonus_witness :
  UI.step
    (handleAssessCondition (Some (Metadata.mk "1984" "George Orwell"))
       (fun request =>
          Resolved (assessBookCondition samplePrinter request
                      (fun _ => PromptResolves (Some sampleOutput)) (fun _ => dec 5 1)))
       [Photo.mk "Front Cover" "data:image/png;base64,AAAA"]
       (UI.mk CONDITION_CAPTURE None [])) = ASSESSMENT_CONFIRM.
Proof.
  refine (proj1 (@intake_assessment_has_no_bonus samplePrinter
                   (Some (Metadata.mk "1984" "George Orwell"))
                   (fun _ => PromptResolves (Some sampleOutput)) (fun _ => dec 5 1)
                   [Photo.mk "Front Cover" "data:image/png;base64,AAAA"]
                   (UI.mk CONDITION_CAPTURE None []) _)).
  intros photo [<- | []]. split; discriminate.
Defined.

(* ================================================================== *)
(** ** The demand score on the platform's [toLowerCase] *)
(* ================================================================== *)

(** The demand score of the flow is the platform's with the folding of
    [A]-[Z] for [toLowerCase]. *)
Lemma calculateDemandScore_on_platform (bookTitle bookAuthor : option string) :
  calculateDemandScore bookTitle bookAuthor =
  Platform.calculateDemandScore toLowerCase bookTitle bookAuthor.
Proof. reflexivity. Qed.

Lemma platform_demand_values (lower : string -> string)
    (bookTitle bookAuthor : option string) :
  In (Platform.calculateDemandScore lower bookTitle bookAuthor) demandValues.
Proof.
  unfold Platform.calculateDemandScore.
  destruct (falsy bookTitle); [now left |].
  destruct (some popularBooks _); [right; right; now left |].
  destruct (some trendingGenres _); [right; now left | now left].
Qed.

(** C5. Demand score, for every lower-casing [lower] the platform may
    provide: an absent or empty title scores 1; otherwise a title whose
    lower-cased text contains an entry of the curated list scores 3, as "Harry
    Potter and the Chamber of Secrets" does once [lower] folds ASCII letters;
    otherwise one whose lower-cased text contains a trending-genre keyword
    scores 2; otherwise the score is 1; the score always lies in [[0,3]]. *)
Theorem demand_score_policy (lower : string -> string) :
  (forall author, Platform.calculateDemandScore lower None author = #1) /\
  (forall author, Platform.calculateDemandScore lower (Some "") author = #1) /\
  (forall title author,
     title <> "" ->
     (exists book, In book popularBooks /\ Substring book (lower title)) ->
     Platform.calculateDemandScore lower (Some title) author = #3) /\
  (foldsAscii lower ->
   forall author,
     Platform.calculateDemandScore lower
       (Some "Harry Potter and the Chamber of Secrets") author = #3) /\
  (forall title author,
     title <> "" ->
     ~ (exists book, In book popularBooks /\ Substring book (lower title)) ->
     (exists genre, In genre trendingGenres /\ Substring genre (lower title)) ->
     Platform.calculateDemandScore lower (Some title) author = #2) /\
  (forall title author,
     title <> "" ->
     ~ (exists book, In book popularBooks /\ Substring book (lower title)) ->
     ~ (exists genre, In genre trendingGenres /\ Substring genre (lower title)) ->
     Platform.calculateDemandScore lower (Some title) author = #1) /\
  (forall title author,
     (#0 <=? Platform.calculateDemandScore lower title author) = true /\
     (Platform.calculateDemandScore lower title author <=? #3) = true).
Proof.
  assert (nonempty : forall t, t <> "" -> falsy (Some t) = false).
  { intros [| c t] H; [contradiction | reflexivity]. }
  assert (popular : forall title author,
            title <> "" ->
            (exists book, In book popularBooks /\ Substring book (lower title)) ->
            Platform.calculateDemandScore lower (Some title) author = #3).
  { intros title author Ht Hp. unfold Platform.calculateDemandScore.
    rewrite (nonempty _ Ht). cbv zeta.
    change (string_of (Some title)) with title.
    apply some_includes in Hp. rewrite Hp. reflexivity. }
  split; [reflexivity |]. split; [reflexivity |]. split; [exact popular |].
  split; [| split; [| split]].
  - intros Hfold author. apply popular; [discriminate |].
    exists "harry potter". split; [cbn [popularBooks In]; tauto |].
    rewrite (Hfold "Harry Potter and the Chamber of Secrets" eq_refl).
    exists "", " and the chamber of secrets". reflexivity.
  - intros title author Ht Hp Hg. unfold Platform.calculateDemandScore.
    rewrite (nonempty _ Ht). cbv zeta.
    change (string_of (Some title)) with title.
    rewrite <- some_includes in Hp, Hg.
    apply not_true_is_false in Hp. rewrite Hp, Hg. reflexivity.
  - intros title author Ht Hp Hg. unfold Platform.calculateDemandScore.
    rewrite (nonempty _ Ht). cbv zeta.
    change (string_of (Some title)) with title.
    rewrite <- some_includes in Hp, Hg.
    apply not_true_is_false in Hp. apply not_true_is_false in Hg.
    rewrite Hp, Hg. reflexivity.
  - intros title author.
    pose proof (platform_demand_values lower title author) as H.
    destruct H as [<- | [<- | [<- | []]]]; split; reflexivity.
Qed.

(** With a lower-casing that maps the Kelvin sign to [k], a title spelt
    with that sign in "Kill" is matched; the folding of [A]-[Z] alone does not
    match it. *)
Lemma demand_score_policy_witness :
  Platform.calculateDemandScore toLowerCaseWithKelvin
    (Some ("To " ++ kelvinSign ++ "ill a Mockingbird")) None = #3 /\
  Platform.calculateDemandScore toLowerCase
    (Some ("To " ++ kelvinSign ++ "ill a Mockingbird")) None = #1 /\
  Platform.calculateDemandScore toLowerCase
    (Some "Harry Potter and the Chamber of Secrets") None = #3.
Proof.
  destruct (demand_score_policy toLowerCaseWithKelvin) as (_ & _ & Hpop & _).
  destruct (demand_score_policy toLowerCase) as (_ & _ & _ & Hharry & _ & Hnone & _).
  split; [| split].
  - apply Hpop; [discriminate |].
    exists "to kill a mockingbird". split; [cbn [popularBooks In]; tauto |].
    exists "", "". reflexivity.
  - apply Hnone; [discriminate | |].
    + rewrite <- some_includes. vm_compute. discriminate.
    + rewrite <- some_includes. vm_compute. discriminate.
  - apply Hharry. intros s _. reflexivity.
Defined.

(* ================================================================== *)
(** ** The flow as registered, and scores outside the range *)
(* ================================================================== *)

(** The cascade of the cover and the spine, on a number that is above 10,
    below 0 or an integer. *)
Lemma cascade_literal (c : number) :
  outsideOrInteger c = true ->
  (if c >=? #9 then #1 else if c >=? #7 then #0 else - #1) = literalBand c.
Proof.
  unfold outsideOrInteger, literalBand.
  destruct (#10 <? c) eqn:A.
  - intros _. apply above_ten_meets_thresholds in A. destruct A as (-> & _ & _).
    reflexivity.
  - destruct (c <? #0) eqn:N.
    + intros _. apply negative_meets_no_threshold in N. destruct N as (-> & _ & ->).
      reflexivity.
    + cbn [orb]. intros H. apply band_on_integers. exact H.
Qed.

(** The comparison of the pages, on every number. *)
Lemma page_literal (c : number) :
  (if c >=? #8 then #1 else - #1) = literalPage c.
Proof.
  unfold literalPage, pageContribution.
  destruct (#10 <? c) eqn:A.
  - apply above_ten_meets_thresholds in A. destruct A as (_ & -> & _). reflexivity.
  - destruct (c <? #0) eqn:N; [| reflexivity].
    apply negative_meets_no_threshold in N. destruct N as (_ & -> & _). reflexivity.
Qed.

Lemma scored_fields_table : engineTable scoredFieldsValid = true.
Proof. vm_compute. reflexivity. Qed.

(** What the body returns has the visual fields of the provider's answer. *)
Lemma flow_keeps_visual_fields (Number_toString : number -> string) (input : Input.t)
    (output r : Output.t) :
  assessBookConditionFlow Number_toString input (Some output) = Return r ->
  Genkit.visualAssessmentValid r = Genkit.visualAssessmentValid output.
Proof.
  intros F.
  destruct (rejected output) eqn:R.
  - rewrite (flow_rejected Number_toString input output R) in F.
    apply Return_inj in F. rewrite <- F.
    unfold Genkit.visualAssessmentValid. reflexivity.
  - rewrite (flow_scored Number_toString input output R) in F.
    cbv zeta in F. apply Return_inj in F. rewrite <- F.
    unfold Genkit.visualAssessmentValid. reflexivity.
Qed.

(** The table of the scores, written out field by field. *)
Lemma scored_fields_checks (c d b : number) :
  scoredFieldsValid c d b = true ->
  (Genkit.numberBetween #0 #5 c
  && Genkit.numberBetween #0 #3 d
  && Genkit.numberBetween #0 #1 #0
  && Genkit.numberBetween #0 #5 b = true) /\
  (Genkit.numberFrom #0 (Final.finalCredits (calculateFinalCredits c d #0 b))
      && Genkit.anyNumber (conditionCredits (Final.breakdown (calculateFinalCredits c d #0 b)))
      && Genkit.anyNumber (demandCredits (Final.breakdown (calculateFinalCredits c d #0 b)))
      && Genkit.anyNumber (rarityCredits (Final.breakdown (calculateFinalCredits c d #0 b)))
      && Genkit.anyNumber (bonusCredits (Final.breakdown (calculateFinalCredits c d #0 b))) = true).
Proof.
  intros T. unfold scoredFieldsValid in T. cbv zeta in T.
  apply andb_prop in T. exact T.
Qed.

(** The calculated and the final fields of what the body returns for a book
    it does not reject. *)
Lemma flow_scored_fields (Number_toString : number -> string)
    (input : Input.t) (output r : Output.t) :
  rejected output = false ->
  assessBookConditionFlow Number_toString input (Some output) = Return r ->
  Output.conditionScore r = calculateConditionScore (assessmentOf output) /\
  Output.demandScore r
    = calculateDemandScore (Input.bookTitle input) (Input.bookAuthor input) /\
  Output.rarityScore r = #0 /\
  Output.bonusFactors r = calculateBonusFactors (flagsOf input) /\
  Output.finalCredits r
    = Final.finalCredits
        (calculateFinalCredits (calculateConditionScore (assessmentOf output))
           (calculateDemandScore (Input.bookTitle input) (Input.bookAuthor input))
           #0 (calculateBonusFactors (flagsOf input))) /\
  Output.creditBreakdown r
    = Final.breakdown
        (calculateFinalCredits (calculateConditionScore (assessmentOf output))
           (calculateDemandScore (Input.bookTitle input) (Input.bookAuthor input))
           #0 (calculateBonusFactors (flagsOf input))).
Proof.
  intros R F.
  rewrite (flow_scored Number_toString input output R) in F.
  cbv zeta in F. apply Return_inj in F. rewrite <- F.
  cbv beta iota delta [Output.conditionScore Output.demandScore Output.rarityScore
    Output.bonusFactors Output.finalCredits Output.creditBreakdown].
  unfold calculateRarityScore.
  repeat split.
Qed.

(** What the body returns passes the checks on the calculated and the final
    fields. *)
Lemma flow_calculated_fields_valid (Number_toString : number -> string)
    (input : Input.t) (output r : Output.t) :
  assessBookConditionFlow Number_toString input (Some output) = Return r ->
  Genkit.calculatedScoresValid r = true /\ Genkit.finalResultsValid r = true.
Proof.
  intros F.
  destruct (rejected output) eqn:R.
  - rewrite (flow_rejected Number_toString input output R) in F.
    apply Return_inj in F. rewrite <- F. split; vm_compute; reflexivity.
  - destruct (@flow_scored_fields Number_toString input output r R F) as (H1 & H2 & H3 & H4 & H5 & H6).
    unfold Genkit.calculatedScoresValid, Genkit.finalResultsValid.
    rewrite H1, H2, H3, H4, H5, H6.
    apply scored_fields_checks.
    apply (engineTable_sound _ scored_fields_table).
Qed.



